(** * FraudDetector (src/api/src/middleware/auth.js) — a shallow embedding

    The class [FraudDetector] runs four evaluators over a candidate expense,
    querying the Mongo collection [Expense] through [Expense.find] and
    [Expense.countDocuments].  Awaited calls either resolve or reject; we
    model them in a small error monad [Result].  The collection is a list of
    documents together with an oracle telling which filters make the server
    fail (network, timeout, driver error, invalid [$regex], ...). *)

From Stdlib Require Import ZArith QArith Qround List String Ascii Bool Lia.
Import ListNotations.
Open Scope Z_scope.
Open Scope string_scope.

(* ------------------------------------------------------------------ *)
(** ** Awaited results: resolve with a value, or reject (throw). *)

Inductive Result (A : Type) : Type :=
| Ok (a : A)
| Throw (err : string).
Arguments Ok {A} a.
Arguments Throw {A} err.

Definition bind {A B : Type} (m : Result A) (k : A -> Result B) : Result B :=
  match m with
  | Ok a => k a
  | Throw e => Throw e
  end.

Notation "x <- m ;; k" := (bind m (fun x => k))
  (at level 61, m at next level, right associativity).

(** [try { m } catch (error) { h(error) }] *)
Definition try_catch {A : Type} (m : Result A) (h : string -> Result A) : Result A :=
  match m with
  | Ok a => Ok a
  | Throw e => h e
  end.

(* ------------------------------------------------------------------ *)
(** ** JavaScript helpers *)

(** JS [Number.prototype.toString] on the amounts; a runtime primitive, kept
    abstract. *)
Class NumberToString := number_to_string : Q -> string.

(** Decimal rendering of a non-negative integer (what JS prints for a small
    integral Number, e.g. [recentExpenses.length + 1]). *)
Fixpoint digits_aux (fuel n : nat) (acc : string) : string :=
  match fuel with
  | O => acc
  | S f =>
      let acc' := String (ascii_of_nat (48 + Nat.modulo n 10)) acc in
      match Nat.div n 10 with
      | O => acc'
      | q => digits_aux f q acc'
      end
  end.

Definition nat_to_string (n : nat) : string := digits_aux (S n) n "".

(** [Array.prototype.join(sep)] on an array of strings. *)
Fixpoint join (sep : string) (l : list string) : string :=
  match l with
  | [] => ""
  | [x] => x
  | x :: r => x ++ sep ++ join sep r
  end.

(** JS [%] on numbers: [n - d * trunc(n / d)], computed exactly. *)
Definition js_mod (n d : Q) : Q :=
  (n - d * inject_Z (Z.quot (Qnum n * Zpos (Qden d)) (Zpos (Qden n) * Qnum d)))%Q.

(** JS numbers are IEEE-754 doubles: every arithmetic result is the
    exact result rounded to the nearest double, ties to even.
    [div_round_even n d] rounds [n / d] ([d > 0]) to an integer that way. *)
Definition div_round_even (n d : Z) : Z :=
  let m := Z.div n d in
  let r := Z.modulo n d in
  match Z.compare (2 * r) d with
  | Lt => m
  | Gt => m + 1
  | Eq => if Z.even m then m else m + 1
  end.

(** The exponent [e] with [2^e <= n / d < 2^(e+1)], for [n, d > 0]. *)
Definition log2_frac (n d : Z) : Z :=
  let e := Z.log2 n - Z.log2 d in
  let ge := if Z.leb 0 e then Z.leb (d * 2 ^ e) n else Z.leb d (n * 2 ^ (- e)) in
  if ge then e else e - 1.

(** [n / d] rounded to a double: 53 significant bits, quantum at least
    [2^-1074] (subnormals).  Finite results only; the values rounded in
    this development are at most 100. *)
Definition round_pos (n d : Z) : Q :=
  let qe := Z.max (log2_frac n d - 52) (-1074) in
  if Z.leb 0 qe then inject_Z (div_round_even n (d * 2 ^ qe) * 2 ^ qe)
  else (div_round_even (n * 2 ^ (- qe)) d # Z.to_pos (2 ^ (- qe)))%Q.

Definition to_double (x : Q) : Q :=
  match Qnum x with
  | Z0 => 0%Q
  | Zpos n => round_pos (Zpos n) (Zpos (Qden x))
  | Zneg n => Qopp (round_pos (Zpos n) (Zpos (Qden x)))
  end.

(** JS [x / y] and [x * y] on doubles. *)
Definition js_div (x y : Q) : Q := to_double (x / y).
Definition js_mul (x y : Q) : Q := to_double (x * y).

(** [x.toFixed(2)] for a non-negative double [x] below 10^21: the integer
    [k] for which [k / 100 - x] is closest to zero (the larger one on a
    tie), computed on the exact value of [x], printed with two decimals. *)
Definition toFixed2 (x : Q) : string :=
  let k := Z.to_nat (Qfloor (x * inject_Z 100 + (1 # 2))%Q) in
  let frac := Nat.modulo k 100 in
  nat_to_string (Nat.div k 100) ++ "." ++
  (if Nat.ltb frac 10 then "0" else "") ++ nat_to_string frac.

(** A JS value that is either a number or a string ([fraudRate]). *)
Inductive JsVal : Type :=
| JNum (q : Q)
| JStr (s : string).

(* ------------------------------------------------------------------ *)
(** ** The [Expense] collection (src/unnamed/part_010, the schema) *)

Record Expense : Type := mkExpense {
  _id : option Z;          (* [undefined] for a candidate not yet stored *)
  userId : Z;
  amount : Q;
  description : string;
  date : Z;                (* occurrence date, ms since the epoch *)
  createdAt : Z;           (* creation timestamp, ms since the epoch *)
  isFlagged : bool;
  status : string
}.

(** The filters the detector passes to [Expense.find] / [countDocuments]. *)
Inductive Filter : Type :=
| FDuplicate (uid : Z) (amt : Q) (startTime endTime : Z) (ne : option Z)
    (* { userId, amount, date: {$gte, $lte}, _id: {$ne} } *)
| FSimilar (uid : Z) (pat : string) (ne : option Z) (since : Z)
    (* { userId, description: {$regex, $options: "i"}, _id: {$ne}, createdAt: {$gte} } *)
| FRecent (uid : Z) (since : Z) (ne : option Z)
    (* { userId, createdAt: {$gte}, _id: {$ne} } *)
| FAll                  (* {} *)
| FFlagged              (* { isFlagged: true } *)
| FFlaggedPending.      (* { isFlagged: true, status: "pending" } *)

Record Store : Type := mkStore {
  docs : list Expense;
  (** the server's [$regex] test with option ["i"]: pattern, subject *)
  regex_i : string -> string -> bool;
  (** the filters on which the server rejects the query *)
  fails : Filter -> bool
}.

Definition option_Z_eqb (a b : option Z) : bool :=
  match a, b with
  | Some x, Some y => Z.eqb x y
  | None, None => true
  | _, _ => false
  end.

(** [_id: { $ne: v }] *)
Definition id_ne (v : option Z) (d : Expense) : bool :=
  negb (option_Z_eqb (_id d) v).

Definition matches (st : Store) (f : Filter) (d : Expense) : bool :=
  match f with
  | FDuplicate uid amt s e ne =>
      Z.eqb (userId d) uid && Qeq_bool (amount d) amt &&
      Z.leb s (date d) && Z.leb (date d) e && id_ne ne d
  | FSimilar uid pat ne since =>
      Z.eqb (userId d) uid && regex_i st pat (description d) &&
      id_ne ne d && Z.leb since (createdAt d)
  | FRecent uid since ne =>
      Z.eqb (userId d) uid && Z.leb since (createdAt d) && id_ne ne d
  | FAll => true
  | FFlagged => isFlagged d
  | FFlaggedPending => isFlagged d && String.eqb (status d) "pending"
  end.

Definition find (st : Store) (f : Filter) : Result (list Expense) :=
  if fails st f then Throw "MongoServerError"
  else Ok (filter (matches st f) (docs st)).

Definition countDocuments (st : Store) (f : Filter) : Result nat :=
  if fails st f then Throw "MongoServerError"
  else Ok (List.length (filter (matches st f) (docs st))).

(* ------------------------------------------------------------------ *)
(** ** Verdicts and decisions *)

(** An entry of [relatedExpenses]. *)
Record Related : Type := mkRelated {
  rel_id : option Z;
  rel_date : Z;
  timeDifference : Q        (* minutes *)
}.

(** The object an evaluator returns: [{ isFlagged }] or
    [{ isFlagged, reason }] or [{ isFlagged, reason, relatedExpenses }]. *)
Record Verdict : Type := mkVerdict {
  v_isFlagged : bool;
  v_reason : option string;           (* [undefined] when absent *)
  v_related : list Related
}.

Definition not_flagged : Verdict := mkVerdict false None [].

Definition flagged_with (r : string) : Verdict := mkVerdict true (Some r) [].

(** The value of [result.reason] as [join] prints it ([undefined] -> [""]). *)
Definition reason_str (v : Verdict) : string :=
  match v_reason v with
  | Some s => s
  | None => ""
  end.

Record Decision : Type := mkDecision {
  d_isFlagged : bool;
  d_reason : string;
  details : list Verdict
}.

Record FraudStats : Type := mkFraudStats {
  totalExpenses : nat;
  flaggedExpenses : nat;
  pendingReview : nat;
  fraudRate : JsVal
}.

Section FraudDetector.
Context `{NumberToString}.

Definition MINUTE : Z := 60 * 1000.

(** [checkDuplicateAmounts] *)
Definition checkDuplicateAmounts (st : Store) (expense : Expense) : Result Verdict :=
  let timeWindow := 60 * 60 * 1000 in
  let startTime := date expense - timeWindow in
  let endTime := date expense + timeWindow in
  try_catch
    (duplicateExpenses <-
       find st (FDuplicate (userId expense) (amount expense) startTime endTime
                  (_id expense)) ;;
     if Nat.ltb 0 (List.length duplicateExpenses) then
       Ok (mkVerdict true
             (Some ("Duplicate amount ($" ++ number_to_string (amount expense) ++
                    ") found within 60 minutes"))
             (map (fun exp => mkRelated (_id exp) (date exp)
                    (inject_Z (Z.abs (date expense - date exp)) / inject_Z MINUTE)%Q)
                  duplicateExpenses))
     else Ok not_flagged)
    (fun _ => Ok not_flagged).

(** The round-number test of [checkSuspiciousPatterns]. *)
Definition is_round (a : Q) : bool :=
  Qeq_bool (js_mod a (inject_Z 100)) 0%Q || Qeq_bool (js_mod a (inject_Z 50)) 0%Q ||
  Qeq_bool (js_mod a (inject_Z 25)) 0%Q.

(** [checkSuspiciousPatterns]; [now] is [Date.now()]. *)
Definition checkSuspiciousPatterns (st : Store) (now : Z) (expense : Expense)
  : Result Verdict :=
  let suspiciousPatterns :=
    if is_round (amount expense) then ["Round number amount"] else [] in
  similarExpenses <-
    find st (FSimilar (userId expense) (description expense) (_id expense)
               (now - 7 * 24 * 60 * 60 * 1000)) ;;
  let suspiciousPatterns :=
    (suspiciousPatterns ++
    (if Nat.ltb 2 (List.length similarExpenses)
     then ["Similar descriptions in recent submissions"] else []))%list in
  if Nat.ltb 0 (List.length suspiciousPatterns) then
    Ok (flagged_with (join "; " suspiciousPatterns))
  else Ok not_flagged.

Definition HIGH_AMOUNT_THRESHOLD : Q := inject_Z 1000.
Definition VERY_HIGH_AMOUNT_THRESHOLD : Q := inject_Z 5000.

(** [checkAmountThresholds] (synchronous) *)
Definition checkAmountThresholds (expense : Expense) : Verdict :=
  if Qle_bool VERY_HIGH_AMOUNT_THRESHOLD (amount expense) then
    flagged_with ("Very high amount ($" ++ number_to_string (amount expense) ++
                  ") requires additional review")
  else if Qle_bool HIGH_AMOUNT_THRESHOLD (amount expense) then
    flagged_with ("High amount ($" ++ number_to_string (amount expense) ++
                  ") flagged for review")
  else not_flagged.

(** [checkRapidSubmissions] *)
Definition checkRapidSubmissions (st : Store) (expense : Expense) : Result Verdict :=
  let timeWindow := 30 * 60 * 1000 in
  let startTime := date expense - timeWindow in
  try_catch
    (recentExpenses <- find st (FRecent (userId expense) startTime (_id expense)) ;;
     if Nat.leb 5 (List.length recentExpenses) then
       Ok (flagged_with ("Too many submissions (" ++
                         nat_to_string (List.length recentExpenses + 1) ++
                         ") within 30 minutes"))
     else Ok not_flagged)
    (fun _ => Ok not_flagged).

(** [detectFraud]: the results array is grown by [push] in evaluator order. *)
Definition push_if_flagged (acc : list Verdict) (v : Verdict) : list Verdict :=
  if v_isFlagged v then (acc ++ [v])%list else acc.

Definition detectFraud (st : Store) (now : Z) (expense : Expense) : Result Decision :=
  let detectionResults := [] in
  duplicateCheck <- checkDuplicateAmounts st expense ;;
  let detectionResults := push_if_flagged detectionResults duplicateCheck in
  patternCheck <- checkSuspiciousPatterns st now expense ;;
  let detectionResults := push_if_flagged detectionResults patternCheck in
  let amountCheck := checkAmountThresholds expense in
  let detectionResults := push_if_flagged detectionResults amountCheck in
  rapidCheck <- checkRapidSubmissions st expense ;;
  let detectionResults := push_if_flagged detectionResults rapidCheck in
  let isFlagged := Nat.ltb 0 (List.length detectionResults) in
  let reasons := join "; " (map reason_str detectionResults) in
  Ok (mkDecision isFlagged reasons detectionResults).

End FraudDetector.

(** [getFraudStatistics] *)
Definition getFraudStatistics (st : Store) : Result FraudStats :=
  try_catch
    (totalExpenses <- countDocuments st FAll ;;
     flaggedExpenses <- countDocuments st FFlagged ;;
     pendingReview <- countDocuments st FFlaggedPending ;;
     Ok (mkFraudStats totalExpenses flaggedExpenses pendingReview
           (if Nat.ltb 0 totalExpenses
            then JStr (toFixed2 (js_mul (js_div (inject_Z (Z.of_nat flaggedExpenses))
                                                (inject_Z (Z.of_nat totalExpenses)))
                                        (inject_Z 100)))
            else JNum 0%Q)))
    (fun _ => Ok (mkFraudStats 0 0 0 (JNum 0%Q))).

(* ------------------------------------------------------------------ *)
(** ** Statement-side vocabulary *)

(** Historical records the claims count, written from the claims' words. *)
Definition same_owner (e h : Expense) : bool := Z.eqb (userId h) (userId e).

Definition not_self (e h : Expense) : bool :=
  match _id h, _id e with
  | Some a, Some b => negb (Z.eqb a b)
  | None, None => false
  | _, _ => true
  end.

(** Repeated-description sub-check: same owner, description accepted by the
    server's case-insensitive regex test with the candidate's description
    as pattern, created in the last 7 days, not the candidate itself. *)
Definition similar_count (st : Store) (now : Z) (e : Expense) : nat :=
  List.length (filter (fun h => same_owner e h &&
                                regex_i st (description e) (description h) &&
                                Z.leb (now - 7 * 24 * 60 * 60 * 1000) (createdAt h) &&
                                not_self e h) (docs st)).

(** Rapid-submission window: same owner, created at or after the
    candidate's occurrence date minus 30 minutes, not the candidate. *)
Definition recent_count (st : Store) (e : Expense) : nat :=
  List.length (filter (fun h => same_owner e h &&
                                Z.leb (date e - 30 * 60 * 1000) (createdAt h) &&
                                not_self e h) (docs st)).

(** The reasons of a list of verdicts that are present and non-empty. *)
Definition nonempty_reasons (vs : list Verdict) : list string :=
  flat_map (fun v => match v_reason v with
                     | Some s => if String.eqb s "" then [] else [s]
                     | None => []
                     end) vs.

(** A store that answers every query. *)
Definition answers (st : Store) : Prop := forall f, fails st f = false.

(** [amount] is an integral multiple of [m]. *)
Definition multiple_of (a : Q) (m : Z) : Prop := exists k : Z, (a == inject_Z (m * k))%Q.

(** What JS prints for a non-negative Number with at most two decimals
    ([250] -> "250", [12.5] -> "12.5", [12.34] -> "12.34"); used to run the
    detector on examples. *)
Definition amount_to_string : NumberToString :=
  fun q =>
    let c := Z.to_nat (Qfloor (q * inject_Z 100)) in
    let ip := Nat.div c 100 in
    let fp := Nat.modulo c 100 in
    if Nat.eqb fp 0 then nat_to_string ip
    else if Nat.eqb (Nat.modulo fp 10) 0
    then nat_to_string ip ++ "." ++ nat_to_string (Nat.div fp 10)
    else nat_to_string ip ++ "." ++ (if Nat.ltb fp 10 then "0" else "") ++
         nat_to_string fp.

(** A [$regex] test for patterns without metacharacters, option ["i"]:
    case-insensitive substring search; used to run the detector on examples. *)
Definition lower (c : ascii) : ascii :=
  let n := nat_of_ascii c in
  if Nat.leb 65 n && Nat.leb n 90 then ascii_of_nat (n + 32) else c.

Fixpoint lower_s (s : string) : string :=
  match s with
  | EmptyString => EmptyString
  | String c r => String (lower c) (lower_s r)
  end.

Fixpoint contains (p s : string) : bool :=
  String.prefix p s ||
  match s with
  | EmptyString => false
  | String _ r => contains p r
  end.

Definition literal_regex_i (pat subj : string) : bool :=
  contains (lower_s pat) (lower_s subj).

(** Each evaluator's verdict carries a non-empty reason iff it is flagged. *)
Definition well_formed (v : Verdict) : Prop :=
  if v_isFlagged v then exists s, v_reason v = Some s /\ s <> "" else v_reason v = None.

(** Example data: a candidate of 250 at time [T0] and a stored record of the
    same owner and amount 15 minutes later (Scenario B of the spec). *)
Definition T0 : Z := 1700000000000.

Definition ex_candidate : Expense :=
  mkExpense None 1 (250 # 1) "Team lunch" T0 T0 false "pending".

Definition ex_record : Expense :=
  mkExpense (Some 7) 1 (250 # 1) "Team lunch downtown" (T0 + 15 * 60 * 1000)
            (T0 - 60 * 1000) false "pending".

Definition ex_store : Store := mkStore [ex_record] literal_regex_i (fun _ => false).

Definition ex_decision : Decision :=
  mkDecision true
    "Duplicate amount ($250) found within 60 minutes; Round number amount"
    [mkVerdict true (Some "Duplicate amount ($250) found within 60 minutes")
               [mkRelated (Some 7) (T0 + 15 * 60 * 1000) (900000 # 60000)];
     flagged_with "Round number amount"].

(** Records of owner 2 created [k] minutes after [T0]. *)
Definition ex_recent (k : Z) : Expense :=
  mkExpense (Some (100 + k)) 2 (1234 # 100) "Taxi" (T0 + k * 60 * 1000)
            (T0 + k * 60 * 1000) false "pending".

Definition ex_rapid_store : Store :=
  mkStore (map ex_recent [1; 2; 3; 4; 5]) literal_regex_i (fun _ => false).

Definition ex_rapid_candidate : Expense :=
  mkExpense None 2 (1234 # 100) "Hotel" (T0 + 20 * 60 * 1000)
            (T0 + 20 * 60 * 1000) false "pending".



(** A persisted record screened against a store holding only itself. *)
Definition ex_persisted : Expense :=
  mkExpense (Some 5) 4 (30 # 1) "Parking" T0 T0 false "pending".

Definition ex_self_store : Store := mkStore [ex_persisted] literal_regex_i (fun _ => false).

(** A store on which every query is rejected by the server. *)
Definition ex_down_store : Store :=
  mkStore [ex_record; ex_persisted] literal_regex_i (fun _ => true).

(** A candidate whose description is not a valid regular expression. *)
Definition ex_paren_candidate : Expense :=
  mkExpense None 1 (1234 # 100) "(" T0 T0 false "pending".

(** The server rejects [$regex: "("] (unbalanced parenthesis). *)
Definition ex_regex_error_store : Store :=
  mkStore [ex_record] literal_regex_i
          (fun f => match f with
                    | FSimilar _ pat _ _ => String.eqb pat "("
                    | _ => false
                    end).

Definition ex_empty_store : Store := mkStore [] literal_regex_i (fun _ => false).

(** [n] stored expenses of which [f] are flagged (and pending). *)
Definition ex_rate_store (f n : nat) : Store :=
  mkStore (repeat (mkExpense (Some 1) 1 (250 # 1) "Team lunch" T0 T0 true "pending") f ++
           repeat (mkExpense (Some 2) 1 (250 # 1) "Team lunch" T0 T0 false "pending") (n - f))
          literal_regex_i (fun _ => false).

(* ------------------------------------------------------------------ *)
(** ** [authRateLimit] (src/api/src/middleware/auth.js) *)

(** The closure's [requests] Map: ip -> the array of timestamps kept. *)
Definition RequestLog : Type := string -> option (list Z).

(** [new Map()] *)
Definition empty_log : RequestLog := fun _ => None.

(** [requests.set(key, v)] *)
Definition log_set (m : RequestLog) (key : string) (v : list Z) : RequestLog :=
  fun k => if String.eqb k key then Some v else m k.

(** [requests.get(key)], read as an array ([[]] where absent). *)
Definition log_of (m : RequestLog) (key : string) : list Z :=
  match m key with
  | Some l => l
  | None => []
  end.

Inductive RateResponse : Type :=
| RateNext                          (* next() *)
| RateTooMany (retryAfter : Z).     (* 429 *)

Definition is_next (r : RateResponse) : bool :=
  match r with
  | RateNext => true
  | RateTooMany _ => false
  end.

(** [Math.ceil(a / b)] for an integer [a] and [b > 0]. *)
Definition ceil_div (a b : Z) : Z := - ((- a) / b).

(** One call of the middleware returned by [authRateLimit(windowMs, max)],
    from [req.ip = key] at [Date.now() = now]. *)
Definition authRateLimit_step (windowMs max : Z) (requests : RequestLog)
  (key : string) (now : Z) : RequestLog * RateResponse :=
  let windowStart := now - windowMs in
  let requests :=
    match requests key with
    | Some _ => requests
    | None => log_set requests key []
    end in
  let userRequests := log_of requests key in
  let validRequests := filter (fun time => Z.ltb windowStart time) userRequests in
  let requests := log_set requests key validRequests in
  if Z.leb max (Z.of_nat (List.length validRequests)) then
    (requests, RateTooMany (ceil_div windowMs 1000))
  else
    (* [validRequests.push(now)] mutates the array the Map holds *)
    (log_set requests key (validRequests ++ [now])%list, RateNext).

(** A sequence of calls [(req.ip, Date.now())] through one middleware. *)
Fixpoint authRateLimit_run (windowMs max : Z) (requests : RequestLog)
  (calls : list (string * Z)) : RequestLog * list RateResponse :=
  match calls with
  | [] => (requests, [])
  | (key, now) :: rest =>
      let (requests', r) := authRateLimit_step windowMs max requests key now in
      let (final, rs) := authRateLimit_run windowMs max requests' rest in
      (final, r :: rs)
  end.

(** The times of the calls from [key] that were let through. *)
Fixpoint accepted_times (key : string) (calls : list (string * Z))
  (rs : list RateResponse) : list Z :=
  match calls, rs with
  | (k, t) :: calls', r :: rs' =>
      ((if String.eqb k key && is_next r then [t] else []) ++
       accepted_times key calls' rs')%list
  | _, _ => []
  end.

Fixpoint nondecreasing (ts : list Z) : bool :=
  match ts with
  | a :: ((b :: _) as r) => Z.leb a b && nondecreasing r
  | _ => true
  end.

(** [x] lies in the window [(t - w, t]]. *)
Definition in_window (w t x : Z) : bool := Z.ltb (t - w) x && Z.leb x t.

(* ------------------------------------------------------------------ *)
(** ** Authentication and authorisation middleware (auth.js) *)

(** [req.user] as [authenticateToken] sets it. *)
Record ReqUser : Type := mkReqUser {
  ru_userId : string;
  ru_role : string;
  ru_username : string;
  ru_email : string;
  ru_firstName : string;
  ru_lastName : string
}.

(** A middleware either calls [next()] or answers with a status and an
    [error] message. *)
Inductive MwResponse : Type :=
| MwNext
| MwStatus (code : Z) (error : string).

(** The argument of [requireRole]: a string or an array of strings. *)
Inductive Roles : Type :=
| RoleString (r : string)
| RoleArray (rs : list string).

(** [requireRole(roles)] applied to a request with [req.user]. *)
Definition requireRole (roles : Roles) (user : option ReqUser) : MwResponse :=
  match user with
  | None => MwStatus 401 "Authentication required"
  | Some u =>
      let userRole := ru_role u in
      let requiredRoles := match roles with
                           | RoleArray rs => rs
                           | RoleString r => [r]
                           end in
      if existsb (String.eqb userRole) requiredRoles then MwNext
      else MwStatus 403 "Insufficient permissions"
  end.

Definition requireAdmin : option ReqUser -> MwResponse :=
  requireRole (RoleString "administrator").

Definition requireEmployee : option ReqUser -> MwResponse :=
  requireRole (RoleArray ["employee"; "administrator"]).

(** JSON-side JS values of [req.params] / [req.body] fields. *)
Inductive JsValue : Type :=
| JUndefined
| JNull
| JBool (b : bool)
| JNumber (q : Q)
| JString (s : string)
| JObject.

Definition truthy (v : JsValue) : bool :=
  match v with
  | JUndefined | JNull => false
  | JBool b => b
  | JNumber q => negb (Qeq_bool q 0)
  | JString s => negb (String.eqb s "")
  | JObject => true
  end.

(** [a || b] *)
Definition js_or (a b : JsValue) : JsValue := if truthy a then a else b.

(** [a === b]; two objects from a parsed body are never the same object. *)
Definition js_strict_eq (a b : JsValue) : bool :=
  match a, b with
  | JUndefined, JUndefined | JNull, JNull => true
  | JBool x, JBool y => Bool.eqb x y
  | JNumber x, JNumber y => Qeq_bool x y
  | JString x, JString y => String.eqb x y
  | _, _ => false
  end.

(** [requireOwnershipOrAdmin(resourceUserIdField)] applied to a request. *)
Definition requireOwnershipOrAdmin (resourceUserIdField : string)
  (params body : string -> JsValue) (user : option ReqUser) : MwResponse :=
  match user with
  | None => MwStatus 401 "Authentication required"
  | Some u =>
      let resourceUserId := js_or (params resourceUserIdField) (body resourceUserIdField) in
      let currentUserId := ru_userId u in
      let isAdmin := String.eqb (ru_role u) "administrator" in
      if negb isAdmin && negb (js_strict_eq resourceUserId (JString currentUserId)) then
        MwStatus 403 "Access denied. You can only access your own resources."
      else MwNext
  end.

(** [s.split(" ")] *)
Fixpoint split_space_aux (s cur : string) : list string :=
  match s with
  | EmptyString => [cur]
  | String c r =>
      if Ascii.eqb c " "%char then cur :: split_space_aux r ""
      else split_space_aux r (cur ++ String c EmptyString)
  end.

Definition js_split_space (s : string) : list string := split_space_aux s "".

(** [authHeader && authHeader.split(" ")[1]]: [None] is [undefined]. *)
Definition bearer_token (authHeader : option string) : option string :=
  match authHeader with
  | None => None
  | Some h => if String.eqb h "" then Some "" else nth_error (js_split_space h) 1
  end.

Definition no_space (s : string) : bool :=
  forallb (fun c => negb (Ascii.eqb c " "%char)) (list_ascii_of_string s).

(** A user document as [User.findById] returns it. *)
Record DbUser : Type := mkDbUser {
  du_username : string;
  du_email : string;
  du_firstName : string;
  du_lastName : string;
  du_isActive : bool
}.

(** The external calls of [authenticateToken]: [jwt.verify(token,
    JWT_SECRET)] resolving to the payload [(userId, role)], and
    [User.findById]; a rejection carries the error's [name]. *)
Record AuthEnv : Type := mkAuthEnv {
  jwt_verify : string -> Result (string * string);
  user_findById : string -> Result (option DbUser)
}.

Inductive AuthResponse : Type :=
| AuthNext (user : ReqUser)
| AuthStatus (code : Z) (error : string).

(** [authenticateToken] applied to the [authorization] header. *)
Definition authenticateToken (env : AuthEnv) (authHeader : option string) : AuthResponse :=
  match bearer_token authHeader with
  | None => AuthStatus 401 "Access token required"
  | Some token =>
      if String.eqb token "" then AuthStatus 401 "Access token required" else
      match (decoded <- jwt_verify env token ;;
             user <- user_findById env (fst decoded) ;;
             Ok (decoded, user)) with
      | Ok ((uid, role), Some user) =>
          if du_isActive user then
            AuthNext (mkReqUser uid role (du_username user) (du_email user)
                                (du_firstName user) (du_lastName user))
          else AuthStatus 401 "Invalid token or user not active"
      | Ok (_, None) => AuthStatus 401 "Invalid token or user not active"
      | Throw name =>
          if String.eqb name "TokenExpiredError" then AuthStatus 401 "Token expired"
          else if String.eqb name "JsonWebTokenError" then AuthStatus 401 "Invalid token"
          else AuthStatus 500 "Authentication failed"
      end
  end.

(* ------------------------------------------------------------------ *)
(** ** The expense controller (src/unnamed/part_013) *)

(** A stored expense document: the fields the detector reads, and the
    others of the schema. *)
Record ExpenseDoc : Type := mkExpenseDoc {
  fields : Expense;
  category : string;
  receiptUrl : option string;
  reviewedBy : option Z;
  reviewedAt : option Z;
  reviewNotes : option string;
  flagReason : option string;
  flaggedAt : option Z          (* absent or [null] *)
}.

(** The collection as the controller sees it. *)
Record Collection : Type := mkCollection {
  cdocs : list ExpenseDoc;
  c_regex_i : string -> string -> bool;
  c_fails : Filter -> bool;         (* the detector's queries that reject *)
  read_fails : bool;                (* [Expense.findById] rejects *)
  write_fails : bool;               (* writes reject *)
  populate_fails : bool;            (* [populate] rejects *)
  user_exists : Z -> bool           (* [populate("userId")] finds the user *)
}.

Definition with_docs (c : Collection) (l : list ExpenseDoc) : Collection :=
  mkCollection l (c_regex_i c) (c_fails c) (read_fails c) (write_fails c)
    (populate_fails c) (user_exists c).

(** The collection as [FraudDetector] queries it. *)
Definition detector_store (c : Collection) : Store :=
  mkStore (map fields (cdocs c)) (c_regex_i c) (c_fails c).

Definition set_isFlagged (e : Expense) (b : bool) : Expense :=
  mkExpense (_id e) (userId e) (amount e) (description e) (date e) (createdAt e) b (status e).

Definition set_status (e : Expense) (s : string) : Expense :=
  mkExpense (_id e) (userId e) (amount e) (description e) (date e) (createdAt e) (isFlagged e) s.

(** [expense.isFlagged = b; expense.flagReason = r; expense.flaggedAt = t] *)
Definition flag_doc (d : ExpenseDoc) (b : bool) (r : option string) (t : option Z) : ExpenseDoc :=
  mkExpenseDoc (set_isFlagged (fields d) b) (category d) (receiptUrl d) (reviewedBy d)
    (reviewedAt d) (reviewNotes d) r t.

(** The schema's validators (part_010): [amount] min 0.01 and max 10000,
    the [category] and [status] enums, [description] required with
    maxlength 500, [reviewNotes] maxlength 1000. *)
Definition CATEGORIES : list string :=
  ["meals"; "transportation"; "accommodation"; "office_supplies"; "travel";
   "entertainment"; "other"].

Definition schema_valid (d : ExpenseDoc) : bool :=
  let e := fields d in
  Qle_bool (1 # 100) (amount e) && Qle_bool (amount e) (inject_Z 10000) &&
  existsb (String.eqb (category d)) CATEGORIES &&
  negb (String.eqb (description e) "") && Nat.leb (String.length (description e)) 500 &&
  existsb (String.eqb (status e)) ["pending"; "approved"; "rejected"] &&
  match reviewNotes d with
  | Some n => Nat.leb (String.length n) 1000
  | None => true
  end.

Definition has_id (id : option Z) (d : ExpenseDoc) : bool := option_Z_eqb (_id (fields d)) id.

(** [save()] of a new document: an insert. *)
Definition save_new (c : Collection) (d : ExpenseDoc) : Result Collection :=
  if negb (schema_valid d) then Throw "ValidationError"
  else if write_fails c then Throw "MongoServerError"
  else if existsb (has_id (_id (fields d))) (cdocs c) then Throw "MongoServerError"
  else Ok (with_docs c (cdocs c ++ [d])%list).

(** [save()] of a document read from the collection: an update by [_id]. *)
Definition save_existing (c : Collection) (d : ExpenseDoc) : Result Collection :=
  if negb (schema_valid d) then Throw "ValidationError"
  else if write_fails c then Throw "MongoServerError"
  else if existsb (has_id (_id (fields d))) (cdocs c) then
    Ok (with_docs c (map (fun x => if has_id (_id (fields d)) x then d else x) (cdocs c)))
  else Throw "DocumentNotFoundError".

Inductive CtrlResponse : Type :=
| CError (code : Z) (error : string)
| CCreated (expense : ExpenseDoc) (fc_isFlagged : bool) (fc_reason : string)
| COk (message : string) (expense : ExpenseDoc)
| CFound (expense : ExpenseDoc)
| CDeleted.

(** [x || y] on an optional string and on an optional number. *)
Definition str_or (a : option string) (b : string) : string :=
  match a with
  | Some s => if String.eqb s "" then b else s
  | None => b
  end.

Definition opt_str_or (a b : option string) : option string :=
  match a with
  | Some s => if String.eqb s "" then b else a
  | None => b
  end.

Definition amount_truthy (a : option Q) : bool :=
  match a with
  | Some q => negb (Qeq_bool q 0)
  | None => false
  end.

Section ExpenseController.
Context `{NumberToString}.
(** [ObjectId#toString] and the cast of a string to an ObjectId. *)
Context (oid_str : Z -> string) (oid_of : string -> option Z).

(** [Expense.findById(id)] *)
Definition find_by_id (c : Collection) (id : string) : Result (option ExpenseDoc) :=
  match oid_of id with
  | None => Throw "CastError"
  | Some i =>
      if read_fails c then Throw "MongoServerError"
      else Ok (List.find (has_id (Some i)) (cdocs c))
  end.

(** [createExpense]; [errors] is [validationResult(req)], the body fields
    are the sanitised ones, [newId] the [_id] that [new Expense] draws and
    [now] the clock ([new Date()], [Date.now()] and the timestamp of the
    save; the detector does not read the candidate's [createdAt]). A
    [userId] that does not cast to an ObjectId fails the save's
    validation, whatever the detector answers. *)
Definition createExpense (c : Collection) (now newId : Z) (errors : list string)
  (user : ReqUser) (amount_ : Q) (category_ description_ : string)
  (date_ : option Z) (receiptUrl_ : option string) : Collection * CtrlResponse :=
  match errors with
  | _ :: _ => (c, CError 400 "Validation failed")
  | [] =>
    match oid_of (ru_userId user) with
    | None => (c, CError 500 "Failed to create expense")
    | Some uid =>
      let expense := mkExpense (Some newId) uid amount_ description_
                       (match date_ with Some d => d | None => now end) now false "pending" in
      let doc := mkExpenseDoc expense category_ receiptUrl_ None None None None None in
      match detectFraud (detector_store c) now expense with
      | Throw _ => (c, CError 500 "Failed to create expense")
      | Ok fraudResult =>
        let doc := if d_isFlagged fraudResult
                   then flag_doc doc true (Some (d_reason fraudResult)) (Some now)
                   else doc in
        match save_new c doc with
        | Throw _ => (c, CError 500 "Failed to create expense")
        | Ok c' =>
          if populate_fails c' then (c', CError 500 "Failed to create expense")
          else (c', CCreated doc (d_isFlagged fraudResult) (d_reason fraudResult))
        end
      end
    end
  end.

(** [getExpenseById] *)
Definition getExpenseById (c : Collection) (user : ReqUser) (id : string) : CtrlResponse :=
  let isAdmin := String.eqb (ru_role user) "administrator" in
  match find_by_id c id with
  | Throw _ => CError 500 "Failed to get expense"
  | Ok None => CError 404 "Expense not found"
  | Ok (Some expense) =>
    if populate_fails c then CError 500 "Failed to get expense"
    else if isAdmin then CFound expense
    else if negb (user_exists c (userId (fields expense))) then
      (* [populate] left [userId] null: reading its [_id] throws *)
      CError 500 "Failed to get expense"
    else if negb (String.eqb (oid_str (userId (fields expense))) (ru_userId user)) then
      CError 403 "Access denied"
    else CFound expense
  end.

(** [updateExpense] *)
Definition updateExpense (c : Collection) (now : Z) (errors : list string)
  (user : ReqUser) (id : string) (amount_ : option Q) (category_ description_ : option string)
  (date_ : option Z) (receiptUrl_ : option string) : Collection * CtrlResponse :=
  match errors with
  | _ :: _ => (c, CError 400 "Validation failed")
  | [] =>
    match find_by_id c id with
    | Throw _ => (c, CError 500 "Failed to update expense")
    | Ok None => (c, CError 404 "Expense not found")
    | Ok (Some expense) =>
      if negb (String.eqb (oid_str (userId (fields expense))) (ru_userId user)) then
        (c, CError 403 "Access denied")
      else if negb (String.eqb (status (fields expense)) "pending") then
        (c, CError 400 "Cannot update expense that has already been reviewed")
      else
        let e := fields expense in
        let e' := mkExpense (_id e) (userId e)
                    (match amount_ with Some a => if amount_truthy amount_ then a else amount e
                                      | None => amount e end)
                    (str_or description_ (description e))
                    (match date_ with Some d => d | None => date e end)
                    (createdAt e) (isFlagged e) (status e) in
        let expense := mkExpenseDoc e' (str_or category_ (category expense))
                         (opt_str_or receiptUrl_ (receiptUrl expense)) (reviewedBy expense)
                         (reviewedAt expense) (reviewNotes expense) (flagReason expense)
                         (flaggedAt expense) in
        let screened :=
          if amount_truthy amount_ || (match date_ with Some _ => true | None => false end) then
            match detectFraud (detector_store c) now e' with
            | Throw m => Throw m
            | Ok fraudResult =>
                Ok (flag_doc expense (d_isFlagged fraudResult) (Some (d_reason fraudResult))
                      (if d_isFlagged fraudResult then Some now else None))
            end
          else Ok expense in
        match screened with
        | Throw _ => (c, CError 500 "Failed to update expense")
        | Ok expense =>
          match save_existing c expense with
          | Throw _ => (c, CError 500 "Failed to update expense")
          | Ok c' =>
            if populate_fails c' then (c', CError 500 "Failed to update expense")
            else (c', COk "Expense updated successfully" expense)
          end
        end
    end
  end.

(** [deleteExpense] *)
Definition deleteExpense (c : Collection) (user : ReqUser) (id : string)
  : Collection * CtrlResponse :=
  match find_by_id c id with
  | Throw _ => (c, CError 500 "Failed to delete expense")
  | Ok None => (c, CError 404 "Expense not found")
  | Ok (Some expense) =>
    if negb (String.eqb (oid_str (userId (fields expense))) (ru_userId user)) then
      (c, CError 403 "Access denied")
    else if negb (String.eqb (status (fields expense)) "pending") then
      (c, CError 400 "Cannot delete expense that has already been reviewed")
    else if write_fails c then (c, CError 500 "Failed to delete expense")
    else (with_docs c (filter (fun x => negb (has_id (_id (fields expense)) x)) (cdocs c)),
          CDeleted)
  end.

(** The schema methods [approve] and [reject] ([notes = ""] by default),
    each ending in [this.save()]; a reviewer id that does not cast fails
    the save's validation. *)
Definition review_doc (newStatus : string) (c : Collection) (now : Z)
  (d : ExpenseDoc) (reviewerId : string) (notes : option string)
  : Result (Collection * ExpenseDoc) :=
  match oid_of reviewerId with
  | None => Throw "ValidationError"
  | Some r =>
    let d' := mkExpenseDoc (set_status (fields d) newStatus) (category d) (receiptUrl d)
                (Some r) (Some now) (Some (match notes with Some n => n | None => "" end))
                (flagReason d) (flaggedAt d) in
    c' <- save_existing c d' ;; Ok (c', d')
  end.

Definition approve := review_doc "approved".
Definition reject := review_doc "rejected".

(** [approveExpense] *)
Definition approveExpense (c : Collection) (now : Z) (user : ReqUser) (id : string)
  (notes : option string) : Collection * CtrlResponse :=
  match find_by_id c id with
  | Throw _ => (c, CError 500 "Failed to approve expense")
  | Ok None => (c, CError 404 "Expense not found")
  | Ok (Some expense) =>
    if negb (String.eqb (status (fields expense)) "pending") then
      (c, CError 400 "Expense has already been reviewed")
    else
      match approve c now expense (ru_userId user) notes with
      | Throw _ => (c, CError 500 "Failed to approve expense")
      | Ok (c', expense) =>
        if populate_fails c' then (c', CError 500 "Failed to approve expense")
        else (c', COk "Expense approved successfully" expense)
      end
  end.

(** [rejectExpense] *)
Definition rejectExpense (c : Collection) (now : Z) (user : ReqUser) (id : string)
  (notes : option string) : Collection * CtrlResponse :=
  match find_by_id c id with
  | Throw _ => (c, CError 500 "Failed to reject expense")
  | Ok None => (c, CError 404 "Expense not found")
  | Ok (Some expense) =>
    if negb (String.eqb (status (fields expense)) "pending") then
      (c, CError 400 "Expense has already been reviewed")
    else
      match reject c now expense (ru_userId user) notes with
      | Throw _ => (c, CError 500 "Failed to reject expense")
      | Ok (c', expense) =>
        if populate_fails c' then (c', CError 500 "Failed to reject expense")
        else (c', COk "Expense rejected successfully" expense)
      end
  end.

End ExpenseController.

(** [getExpenseStats] *)
Record ExpenseStats : Type := mkExpenseStats {
  s_totalExpenses : nat;
  s_pendingExpenses : nat;
  s_approvedExpenses : nat;
  s_rejectedExpenses : nat;
  s_flaggedExpenses : nat;
  s_totalAmount : Q;
  s_fraudStats : option FraudStats     (* the key is left out when absent *)
}.

(** [query] is [{}] for an administrator and [{ userId: req.user.userId }]
    (a string) otherwise. [countDocuments] casts that string to an
    ObjectId through the schema; the [$match] stage of [aggregate] is not
    cast, and a string never equals the ObjectId stored in [userId]. The
    [$group] over no document yields [[]], so [totalAmount[0]?.total || 0]
    is 0 for none, and otherwise the server's [$sum] of the matched
    amounts: a double, [mongo_sum] of the amounts in collection order (how
    the server adds and rounds is a parameter). *)
Definition getExpenseStats (oid_of : string -> option Z) (mongo_sum : list Q -> Q)
  (c : Collection) (user : ReqUser) : Result ExpenseStats :=
  let isAdmin := String.eqb (ru_role user) "administrator" in
  let query := if isAdmin then None else Some (ru_userId user) in
  castq <- match query with
           | None => Ok (fun _ : ExpenseDoc => true)
           | Some u =>
               match oid_of u with
               | Some i => Ok (fun d : ExpenseDoc => Z.eqb (userId (fields d)) i)
               | None => Throw "CastError"
               end
           end ;;
  if read_fails c then Throw "MongoServerError" else
  let scoped := filter castq (cdocs c) in
  let count (p : ExpenseDoc -> bool) := List.length (filter p scoped) in
  let matched := filter (fun _ : ExpenseDoc =>
                           match query with Some _ => false | None => true end) (cdocs c) in
  fraudStats <- (if isAdmin then (fs <- getFraudStatistics (detector_store c) ;; Ok (Some fs))
                 else Ok None) ;;
  Ok (mkExpenseStats (List.length scoped)
        (count (fun d => String.eqb (status (fields d)) "pending"))
        (count (fun d => String.eqb (status (fields d)) "approved"))
        (count (fun d => String.eqb (status (fields d)) "rejected"))
        (count (fun d => isFlagged (fields d)))
        (match matched with
         | [] => 0%Q
         | _ => mongo_sum (map (fun d => amount (fields d)) matched)
         end) fraudStats).

(** [getExpenses]: the query object it builds. *)
Record ExpenseQuery : Type := mkExpenseQuery {
  q_userId : option string;
  q_status : option string;
  q_category : option string;
  q_isFlagged : option bool;
  q_date : option (option string * option string);     (* [$gte], [$lte] *)
  q_amount : option (option string * option string)    (* [$gte], [$lte] *)
}.

Definition truthy_str (o : option string) : bool :=
  match o with
  | Some s => negb (String.eqb s "")
  | None => false
  end.

Definition keep_truthy (o : option string) : option string :=
  if truthy_str o then o else None.

(** The query of [getExpenses] from [req.query] (string or [undefined])
    and [req.user]. *)
Definition expense_query (user : ReqUser)
  (status_ category_ isFlagged_ startDate endDate minAmount maxAmount userId_ : option string)
  : ExpenseQuery :=
  let isAdmin := String.eqb (ru_role user) "administrator" in
  mkExpenseQuery
    (if negb isAdmin then Some (ru_userId user) else keep_truthy userId_)
    (keep_truthy status_)
    (keep_truthy category_)
    (match isFlagged_ with Some s => Some (String.eqb s "true") | None => None end)
    (if truthy_str startDate || truthy_str endDate
     then Some (keep_truthy startDate, keep_truthy endDate) else None)
    (if truthy_str minAmount || truthy_str maxAmount
     then Some (keep_truthy minAmount, keep_truthy maxAmount) else None).

(** [createdAt: -1]: newest first. *)
Fixpoint insert_desc (d : ExpenseDoc) (l : list ExpenseDoc) : list ExpenseDoc :=
  match l with
  | [] => [d]
  | x :: r => if Z.ltb (createdAt (fields x)) (createdAt (fields d)) then d :: l
              else x :: insert_desc d r
  end.

Fixpoint sort_desc (l : list ExpenseDoc) : list ExpenseDoc :=
  match l with
  | [] => []
  | x :: r => insert_desc x (sort_desc r)
  end.

Section GetExpenses.
(** The casts Mongoose applies to the query's values: a string to an
    ObjectId, [new Date(s)] and [parseFloat(s)] to a date and a number
    ([None]: not castable, the query is rejected). *)
Context (oid_of : string -> option Z) (date_of : string -> option Z)
  (float_of : string -> option Q).

Definition cast_opt {A} (f : string -> option A) (o : option string) : Result (option A) :=
  match o with
  | None => Ok None
  | Some s => match f s with Some a => Ok (Some a) | None => Throw "CastError" end
  end.

Definition in_range {A} (le : A -> A -> bool) (lo hi : option A) (x : A) : bool :=
  (match lo with Some l => le l x | None => true end) &&
  (match hi with Some h => le x h | None => true end).

(** The filter [Expense.find(query)] applies, after the casts. *)
Definition cast_query (q : ExpenseQuery) : Result (ExpenseDoc -> bool) :=
  uid <- cast_opt oid_of (q_userId q) ;;
  dates <- match q_date q with
           | None => Ok (None, None)
           | Some (a, b) => a' <- cast_opt date_of a ;; b' <- cast_opt date_of b ;; Ok (a', b')
           end ;;
  amounts <- match q_amount q with
             | None => Ok (None, None)
             | Some (a, b) => a' <- cast_opt float_of a ;; b' <- cast_opt float_of b ;; Ok (a', b')
             end ;;
  Ok (fun d =>
        (match uid with Some i => Z.eqb (userId (fields d)) i | None => true end) &&
        (match q_status q with Some s => String.eqb (status (fields d)) s | None => true end) &&
        (match q_category q with Some s => String.eqb (category d) s | None => true end) &&
        (match q_isFlagged q with Some b => Bool.eqb (isFlagged (fields d)) b | None => true end) &&
        in_range Z.leb (fst dates) (snd dates) (date (fields d)) &&
        in_range Qle_bool (fst amounts) (snd amounts) (amount (fields d))).

(** MongoDB's [cursor.limit(n)]: [limit(0)] sets no limit. *)
Definition mongo_limit {A} (n : nat) (l : list A) : list A :=
  match n with
  | O => l
  | _ => firstn n l
  end.

(** [getExpenses]: the page of expenses and [total]; [skip] and [limit]
    are the values [(page - 1) * limit] and [parseInt(limit)] give. *)
Definition getExpenses (c : Collection) (user : ReqUser)
  (status_ category_ isFlagged_ startDate endDate minAmount maxAmount userId_ : option string)
  (skip limit : nat) : Result (list ExpenseDoc * nat) :=
  let query := expense_query user status_ category_ isFlagged_ startDate endDate
                 minAmount maxAmount userId_ in
  m <- cast_query query ;;
  if read_fails c || populate_fails c then Throw "MongoServerError" else
  let found := filter m (cdocs c) in
  Ok (mongo_limit limit (skipn skip (sort_desc found)), List.length found).

End GetExpenses.

(** Example data for the middleware and the controller. *)
Definition ex_env : AuthEnv := mkAuthEnv
  (fun t => if String.eqb t "tok" then Ok ("7", "employee")
            else if String.eqb t "ghost" then Ok ("9", "employee")
            else if String.eqb t "stale" then Throw "TokenExpiredError"
            else Throw "JsonWebTokenError")
  (fun uid => if String.eqb uid "7"
              then Ok (Some (mkDbUser "alice" "alice@example.com" "Alice" "Smith" true))
              else Ok None).

Definition ex_alice : ReqUser :=
  mkReqUser "7" "employee" "alice" "alice@example.com" "Alice" "Smith".

Definition ex_admin : ReqUser :=
  mkReqUser "8" "administrator" "root" "root@example.com" "Ada" "Admin".

Definition ex_oid_str (z : Z) : string := nat_to_string (Z.to_nat z).

Definition ex_oid_of (s : string) : option Z :=
  if String.eqb s "7" then Some 7
  else if String.eqb s "8" then Some 8
  else if String.eqb s "100" then Some 100
  else if String.eqb s "101" then Some 101
  else None.

Definition ex_doc : ExpenseDoc :=
  mkExpenseDoc (mkExpense (Some 100) 7 (inject_Z 42) "Taxi to airport" T0 T0 false "pending")
    "transportation" None None None None None None.

Definition ex_admin_doc : ExpenseDoc :=
  mkExpenseDoc (mkExpense (Some 101) 8 (inject_Z 15) "Printer paper" T0 T0 false "pending")
    "office_supplies" None None None None None None.

(** A [$sum] that adds the doubles left to right. *)
Definition ex_sum (l : list Q) : Q :=
  fold_left (fun acc a => to_double (acc + a)%Q) l 0%Q.

Definition ex_coll : Collection :=
  mkCollection [ex_doc; ex_admin_doc] literal_regex_i (fun _ => false) false false false
    (fun _ => true).

(** The same collection after the account of user 8 was removed. *)
Definition ex_coll_gone : Collection :=
  mkCollection [ex_doc; ex_admin_doc] literal_regex_i (fun _ => false) false false false
    (fun z => negb (Z.eqb z 8)).

(** [ex_coll] whose [$regex] query is rejected. *)
Definition ex_coll_regex_down : Collection :=
  mkCollection [ex_doc; ex_admin_doc] literal_regex_i
    (fun f => match f with FSimilar _ _ _ _ => true | _ => false end) false false false
    (fun _ => true).

Definition no_cast (_ : string) : option Z := None.
Definition no_float (_ : string) : option Q := None.

(* ------------------------------------------------------------------ *)
(** ** Basic facts *)

Lemma find_answers st f :
  fails st f = false -> find st f = Ok (filter (matches st f) (docs st)).
Proof. intros H; unfold find; now rewrite H. Qed.

Lemma countDocuments_answers st f :
  fails st f = false -> countDocuments st f = Ok (List.length (filter (matches st f) (docs st))).
Proof. intros H; unfold countDocuments; now rewrite H. Qed.

Lemma option_Z_eqb_spec a b : option_Z_eqb a b = true <-> a = b.
Proof.
  destruct a as [x|], b as [y|]; simpl; split; intros H; try congruence.
  - now apply Z.eqb_eq in H; subst.
  - inversion H; subst; apply Z.eqb_refl.
Qed.

Lemma id_ne_not_self e h : id_ne (_id e) h = not_self e h.
Proof.
  unfold id_ne, not_self, option_Z_eqb.
  destruct (_id h), (_id e); try reflexivity.
Qed.

Lemma not_self_spec e h : not_self e h = true <-> _id h <> _id e.
Proof.
  rewrite <- id_ne_not_self; unfold id_ne.
  rewrite negb_true_iff, <- not_true_iff_false, option_Z_eqb_spec; tauto.
Qed.

Lemma ltb_0_length_filter {A} (p : A -> bool) (l : list A) :
  Nat.ltb 0 (List.length (filter p l)) = true <-> exists x, In x l /\ p x = true.
Proof.
  rewrite Nat.ltb_lt; split.
  - destruct (filter p l) as [|x r] eqn:E; simpl; [lia|intros _].
    assert (Hx : In x (filter p l)) by (rewrite E; left; reflexivity).
    apply filter_In in Hx; eauto.
  - intros (x & Hin & Hp).
    assert (Hx : In x (filter p l)) by (apply filter_In; auto).
    destruct (filter p l); [contradiction|simpl; lia].
Qed.

Lemma join_cons_app sep x r : exists rest, join sep (x :: r) = x ++ rest.
Proof.
  destruct r as [|y r]; simpl.
  - exists ""; induction x as [|c x IH]; simpl; [reflexivity|now rewrite <- IH].
  - eauto.
Qed.

Lemma append_nonempty_l (x rest : string) : x <> "" -> x ++ rest <> "".
Proof. destruct x; simpl; congruence. Qed.

(** [js_mod a m === 0] exactly when [a] is a multiple of a positive [m]. *)
Lemma js_mod_zero_iff (a : Q) (m : Z) :
  0 < m -> Qeq_bool (js_mod a (inject_Z m)) 0%Q = true <-> multiple_of a m.
Proof.
  intros Hm; rewrite Qeq_bool_iff; unfold multiple_of.
  destruct a as [an ad]; unfold js_mod; cbn [Qnum Qden inject_Z].
  rewrite Z.mul_1_r.
  assert (Hq : forall k, an = k * (Z.pos ad * m) -> Z.quot an (Z.pos ad * m) = k).
  { intros k ->; apply Z.quot_mul; lia. }
  set (q := Z.quot an (Z.pos ad * m)) in *; clearbody q.
  unfold Qeq, Qminus, Qplus, Qopp, Qmult, inject_Z; cbn [Qnum Qden].
  rewrite ?Pos.mul_1_r, ?Pos2Z.inj_mul.
  split.
  - intros E; exists q; nia.
  - intros [k E]. rewrite (Hq k) by nia. nia.
Qed.

Lemma is_round_spec a :
  is_round a = true <->
  multiple_of a 100 \/ multiple_of a 50 \/ multiple_of a 25.
Proof.
  unfold is_round; rewrite !orb_true_iff, !js_mod_zero_iff by lia; tauto.
Qed.

Lemma similar_filter_ext st now e :
  filter (matches st (FSimilar (userId e) (description e) (_id e)
                        (now - 7 * 24 * 60 * 60 * 1000))) (docs st) =
  filter (fun h => same_owner e h &&
                   regex_i st (description e) (description h) &&
                   Z.leb (now - 7 * 24 * 60 * 60 * 1000) (createdAt h) &&
                   not_self e h) (docs st).
Proof.
  apply filter_ext; intros h; cbn [matches]; rewrite id_ne_not_self; unfold same_owner.
  destruct (Z.eqb _ _), (regex_i _ _ _), (not_self e h), (Z.leb _ _); reflexivity.
Qed.

Lemma recent_filter_ext st e :
  filter (matches st (FRecent (userId e) (date e - 30 * 60 * 1000) (_id e))) (docs st) =
  filter (fun h => same_owner e h &&
                   Z.leb (date e - 30 * 60 * 1000) (createdAt h) &&
                   not_self e h) (docs st).
Proof.
  apply filter_ext; intros h; cbn [matches]; rewrite id_ne_not_self; reflexivity.
Qed.

(** The fragments [checkSuspiciousPatterns] collects. *)
Lemma checkSuspiciousPatterns_answers st now e :
  answers st ->
  checkSuspiciousPatterns st now e =
  Ok (let ps := ((if is_round (amount e) then ["Round number amount"] else []) ++
                 (if Nat.ltb 2 (similar_count st now e)
                  then ["Similar descriptions in recent submissions"] else []))%list in
      if Nat.ltb 0 (List.length ps) then flagged_with (join "; " ps) else not_flagged).
Proof.
  intros Hst; unfold checkSuspiciousPatterns.
  rewrite find_answers by apply Hst; cbn [bind].
  rewrite similar_filter_ext; unfold similar_count.
  destruct (Nat.ltb 0 _); reflexivity.
Qed.

Lemma checkRapidSubmissions_answers `{NumberToString} st e :
  answers st ->
  checkRapidSubmissions st e =
  Ok (if Nat.leb 5 (recent_count st e)
      then flagged_with ("Too many submissions (" ++
                         nat_to_string (recent_count st e + 1) ++ ") within 30 minutes")
      else not_flagged).
Proof.
  intros Hst; unfold checkRapidSubmissions.
  rewrite find_answers by apply Hst; cbn [bind try_catch].
  unfold recent_count; rewrite <- recent_filter_ext.
  destruct (Nat.leb 5 _); reflexivity.
Qed.

Lemma well_formed_not_flagged : well_formed not_flagged.
Proof. reflexivity. Qed.

Lemma checkDuplicateAmounts_well_formed `{NumberToString} st e v :
  checkDuplicateAmounts st e = Ok v -> well_formed v.
Proof.
  unfold checkDuplicateAmounts, find.
  destruct (fails st _); cbn [bind try_catch].
  - intros [= <-]; reflexivity.
  - destruct (Nat.ltb 0 _); intros [= <-]; [|reflexivity].
    cbn; eexists; split; [reflexivity|discriminate].
Qed.

Lemma checkSuspiciousPatterns_well_formed st now e v :
  checkSuspiciousPatterns st now e = Ok v -> well_formed v.
Proof.
  unfold checkSuspiciousPatterns, find.
  destruct (fails st _); cbn [bind]; [discriminate|].
  destruct (is_round _), (Nat.ltb 2 _); cbn; intros [= <-]; cbn;
    try reflexivity; eexists; split; (reflexivity || discriminate).
Qed.

Lemma checkAmountThresholds_well_formed `{NumberToString} e :
  well_formed (checkAmountThresholds e).
Proof.
  unfold checkAmountThresholds.
  destruct (Qle_bool _ _); [|destruct (Qle_bool _ _)]; cbn; try reflexivity;
    eexists; split; (reflexivity || discriminate).
Qed.

Lemma checkRapidSubmissions_well_formed `{NumberToString} st e v :
  checkRapidSubmissions st e = Ok v -> well_formed v.
Proof.
  unfold checkRapidSubmissions, find.
  destruct (fails st _); cbn [bind try_catch].
  - intros [= <-]; reflexivity.
  - destruct (Nat.leb 5 _); intros [= <-]; [|reflexivity].
    cbn; eexists; split; [reflexivity|discriminate].
Qed.

(** On well-formed verdicts, the non-empty reasons are those of the flagged
    verdicts. *)
Lemma nonempty_reasons_flagged vs :
  Forall well_formed vs ->
  nonempty_reasons vs = map reason_str (filter v_isFlagged vs).
Proof.
  induction 1 as [|v vs Hv _ IH]; [reflexivity|].
  unfold well_formed in Hv; cbn [nonempty_reasons flat_map filter] in *.
  destruct (v_isFlagged v).
  - destruct Hv as (s & Hs & Hne); rewrite Hs.
    apply String.eqb_neq in Hne; rewrite Hne; cbn.
    unfold reason_str at 1; rewrite Hs; now f_equal.
  - now rewrite Hv.
Qed.

Lemma push_if_flagged_filter d p a r :
  push_if_flagged (push_if_flagged (push_if_flagged (push_if_flagged [] d) p) a) r =
  filter v_isFlagged [d; p; a; r].
Proof.
  unfold push_if_flagged; cbn [filter].
  destruct (v_isFlagged d), (v_isFlagged p), (v_isFlagged a), (v_isFlagged r);
    reflexivity.
Qed.

Lemma ltb_0_length_filter_existsb {A} (f : A -> bool) l :
  Nat.ltb 0 (List.length (filter f l)) = existsb f l.
Proof.
  induction l as [|x l IH]; [reflexivity|]; cbn.
  destruct (f x); [reflexivity|exact IH].
Qed.

(* ------------------------------------------------------------------ *)
(** ** The claims *)

Section Claims.
Context `{NumberToString}.

(** C3: with a store that answers, the Duplicate-Amount check flags iff some
    record of the same owner has exactly the same amount, a date within 60
    minutes (inclusive) of the candidate's, and is not the candidate itself;
    its reason is then "Duplicate amount ($<amount>) found within 60
    minutes".  (A failing query is the fail-open case of C1.) *)
Theorem checkDuplicateAmounts_spec (st : Store) (expense : Expense) :
  answers st ->
  exists v, checkDuplicateAmounts st expense = Ok v /\
    (v_isFlagged v = true <->
       exists h, In h (docs st) /\ userId h = userId expense /\
                 (amount h == amount expense)%Q /\
                 Z.abs (date h - date expense) <= 60 * 60 * 1000 /\
                 _id h <> _id expense) /\
    (v_isFlagged v = true ->
       v_reason v = Some ("Duplicate amount ($" ++ number_to_string (amount expense) ++
                          ") found within 60 minutes")).
Proof.
  intros Hst; unfold checkDuplicateAmounts.
  rewrite find_answers by apply Hst; cbn [bind try_catch].
  set (l := filter _ (docs st)).
  assert (Hl : Nat.ltb 0 (List.length l) = true <->
               exists h, In h (docs st) /\ userId h = userId expense /\
                 (amount h == amount expense)%Q /\
                 Z.abs (date h - date expense) <= 60 * 60 * 1000 /\
                 _id h <> _id expense).
  { unfold l; rewrite ltb_0_length_filter.
    split; intros (h & Hin & Hm); exists h; split; auto.
    - cbn [matches] in Hm; rewrite id_ne_not_self in Hm.
      rewrite !andb_true_iff, Z.eqb_eq, Qeq_bool_iff, !Z.leb_le, not_self_spec in Hm.
      intuition lia.
    - cbn [matches]; rewrite id_ne_not_self.
      rewrite !andb_true_iff, Z.eqb_eq, Qeq_bool_iff, !Z.leb_le, not_self_spec.
      intuition lia. }
  destruct (Nat.ltb 0 (List.length l)) eqn:E.
  - eexists; split; [reflexivity|]; cbn. split; [|reflexivity].
    split; [intros _; apply Hl; reflexivity|reflexivity].
  - eexists; split; [reflexivity|]; cbn. split; [|discriminate].
    split; [discriminate|]. intros Hex; apply Hl in Hex; discriminate.
Qed.


(** C5: the Amount-Threshold check depends on the amount alone; at or above
    5000 it flags with only the "Very high amount" reason, at or above 1000
    (below 5000) with the "High amount" reason, and below 1000 never. *)
Theorem checkAmountThresholds_spec (expense expense' : Expense) :
  (amount expense = amount expense' ->
     checkAmountThresholds expense = checkAmountThresholds expense') /\
  ((inject_Z 5000 <= amount expense)%Q ->
     checkAmountThresholds expense =
     flagged_with ("Very high amount ($" ++ number_to_string (amount expense) ++
                   ") requires additional review")) /\
  ((inject_Z 1000 <= amount expense)%Q -> (amount expense < inject_Z 5000)%Q ->
     checkAmountThresholds expense =
     flagged_with ("High amount ($" ++ number_to_string (amount expense) ++
                   ") flagged for review")) /\
  ((amount expense < inject_Z 1000)%Q ->
     checkAmountThresholds expense = not_flagged /\
     v_isFlagged (checkAmountThresholds expense) = false).
Proof.
  unfold checkAmountThresholds, VERY_HIGH_AMOUNT_THRESHOLD, HIGH_AMOUNT_THRESHOLD.
  assert (Hlt : forall a, (a < inject_Z 1000)%Q -> Qle_bool (inject_Z 5000) a = false).
  { intros a Ha; destruct (Qle_bool _ a) eqn:E; [|reflexivity].
    apply Qle_bool_iff in E; exfalso; apply (Qlt_not_le _ _ Ha).
    eapply Qle_trans; [|exact E]; unfold Qle; simpl; lia. }
  split; [|split; [|split]].
  - intros E; now rewrite E.
  - intros Hv; apply Qle_bool_iff in Hv; now rewrite Hv.
  - intros Hh Hv. apply Qle_bool_iff in Hh; rewrite Hh.
    destruct (Qle_bool (inject_Z 5000) _) eqn:E; [|reflexivity].
    apply Qle_bool_iff in E; exfalso; apply (Qlt_not_le _ _ Hv E).
  - intros Hl. rewrite (Hlt _ Hl).
    destruct (Qle_bool (inject_Z 1000) _) eqn:E'.
    + apply Qle_bool_iff in E'; exfalso; apply (Qlt_not_le _ _ Hl E').
    + split; reflexivity.
Qed.

(** C6: with a store that answers, the Rapid-Submission check flags iff at
    least 5 records of the same owner, not the candidate, were created at or
    after the candidate's occurrence date minus 30 minutes; its reason is
    then "Too many submissions (<count+1>) within 30 minutes". *)
Theorem checkRapidSubmissions_spec (st : Store) (expense : Expense) :
  answers st ->
  exists v, checkRapidSubmissions st expense = Ok v /\
    (v_isFlagged v = true <-> (5 <= recent_count st expense)%nat) /\
    (v_isFlagged v = true ->
       v_reason v = Some ("Too many submissions (" ++
                          nat_to_string (recent_count st expense + 1) ++
                          ") within 30 minutes")).
Proof.
  intros Hst; rewrite checkRapidSubmissions_answers by exact Hst.
  eexists; split; [reflexivity|].
  destruct (Nat.leb 5 _) eqn:E; [apply Nat.leb_le in E|apply Nat.leb_gt in E];
    cbn; split; try split; intros; (reflexivity || discriminate || lia).
Qed.

(** C7: with a store that answers, a candidate whose amount is a multiple of
    100, 50 or 25 gets a flagged pattern verdict whose reason starts with
    "Round number amount"; for any other amount that fragment is absent. *)
Theorem round_number_subcheck (st : Store) (now : Z) (expense : Expense) :
  answers st ->
  exists v, checkSuspiciousPatterns st now expense = Ok v /\
    ((multiple_of (amount expense) 100 \/ multiple_of (amount expense) 50 \/
      multiple_of (amount expense) 25) ->
       v_isFlagged v = true /\
       exists rest, v_reason v = Some ("Round number amount" ++ rest)) /\
    (~ (multiple_of (amount expense) 100 \/ multiple_of (amount expense) 50 \/
        multiple_of (amount expense) 25) ->
       v_reason v = None \/
       v_reason v = Some "Similar descriptions in recent submissions").
Proof.
  intros Hst; rewrite checkSuspiciousPatterns_answers by exact Hst.
  eexists; split; [reflexivity|].
  rewrite <- is_round_spec; split.
  - intros R; rewrite R.
    destruct (Nat.ltb 2 _); cbn; split; try reflexivity; eexists; reflexivity.
  - intros NR; apply not_true_is_false in NR; rewrite NR.
    destruct (Nat.ltb 2 _); cbn; auto.
Qed.

(** C2: whenever the Coordinator returns a decision, [isFlagged] is the OR of
    the four verdicts' flags, [reason] joins the non-empty reasons with "; "
    in the order duplicate, pattern, threshold, rapid, and [details] lists
    exactly the flagged verdicts in that order. *)
Theorem detectFraud_aggregates (st : Store) (now : Z) (expense : Expense)
  (decision : Decision) :
  detectFraud st now expense = Ok decision ->
  exists d p r,
    checkDuplicateAmounts st expense = Ok d /\
    checkSuspiciousPatterns st now expense = Ok p /\
    checkRapidSubmissions st expense = Ok r /\
    d_isFlagged decision = existsb v_isFlagged [d; p; checkAmountThresholds expense; r] /\
    d_reason decision =
      join "; " (nonempty_reasons [d; p; checkAmountThresholds expense; r]) /\
    details decision = filter v_isFlagged [d; p; checkAmountThresholds expense; r].
Proof.
  unfold detectFraud.
  destruct (checkDuplicateAmounts st expense) as [d|] eqn:Ed; [|discriminate].
  destruct (checkSuspiciousPatterns st now expense) as [p|] eqn:Ep; [|discriminate].
  destruct (checkRapidSubmissions st expense) as [r|] eqn:Er; [|discriminate].
  cbn [bind]; intros [= <-].
  exists d, p, r; cbn [d_isFlagged d_reason details].
  rewrite push_if_flagged_filter.
  repeat split; try reflexivity.
  - apply ltb_0_length_filter_existsb.
  - rewrite nonempty_reasons_flagged; [reflexivity|].
    repeat constructor.
    + exact (checkDuplicateAmounts_well_formed _ _ _ Ed).
    + exact (checkSuspiciousPatterns_well_formed _ _ _ _ Ep).
    + apply checkAmountThresholds_well_formed.
    + exact (checkRapidSubmissions_well_formed _ _ _ Er).
Qed.

(** C9: for a persisted candidate (own id [Some i]), no record carrying that
    id matches the duplicate, similar-description or recent-submission query
    the detector builds; screened against a store holding only itself it
    finds no duplicate, no similar description and no recent submission. *)
Theorem self_exclusion (st : Store) (now : Z) (expense : Expense) (i : Z) :
  _id expense = Some i ->
  (forall h, _id h = Some i ->
     (forall uid amt s t, matches st (FDuplicate uid amt s t (_id expense)) h = false) /\
     (forall uid pat since, matches st (FSimilar uid pat (_id expense) since) h = false) /\
     (forall uid since, matches st (FRecent uid since (_id expense)) h = false)) /\
  (docs st = [expense] -> answers st ->
     checkDuplicateAmounts st expense = Ok not_flagged /\
     similar_count st now expense = 0%nat /\
     checkSuspiciousPatterns st now expense =
       Ok (if is_round (amount expense) then flagged_with "Round number amount"
           else not_flagged) /\
     checkRapidSubmissions st expense = Ok not_flagged).
Proof.
  intros Hid.
  assert (Hne : forall h, _id h = Some i -> id_ne (_id expense) h = false).
  { intros h Hh; unfold id_ne, option_Z_eqb; rewrite Hh, Hid, Z.eqb_refl; reflexivity. }
  assert (Hself : not_self expense expense = false).
  { unfold not_self; rewrite Hid, Z.eqb_refl; reflexivity. }
  split.
  - intros h Hh; cbn [matches]; rewrite (Hne h Hh).
    repeat split; intros; rewrite ?andb_false_r; reflexivity.
  - intros Hdocs Hst.
    assert (Hsim : similar_count st now expense = 0%nat).
    { unfold similar_count; rewrite Hdocs; cbn [filter]; rewrite Hself, andb_false_r.
      reflexivity. }
    split; [|split; [exact Hsim|split]].
    + unfold checkDuplicateAmounts; rewrite find_answers by apply Hst.
      rewrite Hdocs; cbn [filter matches]; rewrite (Hne expense Hid), andb_false_r.
      reflexivity.
    + rewrite checkSuspiciousPatterns_answers by exact Hst; rewrite Hsim.
      destruct (is_round _); reflexivity.
    + rewrite checkRapidSubmissions_answers by exact Hst.
      unfold recent_count; rewrite Hdocs; cbn [filter]; rewrite Hself, andb_false_r.
      reflexivity.
Qed.

(** C10: if any of the three count queries fails, [getFraudStatistics]
    resolves (it does not throw) with the fallback
    {0, 0, 0, fraudRate: 0}, which is also what it returns on an empty
    store. *)
Theorem getFraudStatistics_fallback (st : Store) :
  fails st FAll = true \/ fails st FFlagged = true \/ fails st FFlaggedPending = true ->
  getFraudStatistics st = Ok (mkFraudStats 0 0 0 (JNum 0%Q)) /\
  getFraudStatistics st = getFraudStatistics (mkStore [] (regex_i st) (fun _ => false)).
Proof.
  intros Hf.
  assert (E : getFraudStatistics st = Ok (mkFraudStats 0 0 0 (JNum 0%Q))).
  { unfold getFraudStatistics, countDocuments.
    destruct (fails st FAll) eqn:E1; [reflexivity|].
    destruct (fails st FFlagged) eqn:E2; [reflexivity|].
    destruct (fails st FFlaggedPending) eqn:E3; [reflexivity|].
    exfalso; intuition congruence. }
  split; [exact E|]. rewrite E; reflexivity.
Qed.

(** C8 (amended): [getFraudStatistics] never throws; when the store answers,
    [fraudRate] is the string [((flagged / total) * 100).toFixed(2)],
    evaluated on doubles, if [total > 0], and the number 0 (not the string
    "0") if [total = 0]; on an empty store the result is {0, 0, 0, fraudRate: 0}. *)
Theorem getFraudStatistics_rate (st : Store) :
  (exists s, getFraudStatistics st = Ok s) /\
  (answers st ->
     let total := List.length (docs st) in
     let flagged := List.length (filter isFlagged (docs st)) in
     let pending := List.length (filter (fun h => isFlagged h &&
                                                  String.eqb (status h) "pending")
                                        (docs st)) in
     getFraudStatistics st =
     Ok (mkFraudStats total flagged pending
           (if Nat.ltb 0 total
            then JStr (toFixed2 (js_mul (js_div (inject_Z (Z.of_nat flagged))
                                                (inject_Z (Z.of_nat total)))
                                        (inject_Z 100)))
            else JNum 0%Q))) /\
  (docs st = [] -> getFraudStatistics st = Ok (mkFraudStats 0 0 0 (JNum 0%Q))).
Proof.
  split; [|split].
  - unfold getFraudStatistics, countDocuments.
    destruct (fails st FAll), (fails st FFlagged), (fails st FFlaggedPending);
      eexists; reflexivity.
  - intros Hst; cbv zeta.
    unfold getFraudStatistics.
    rewrite !countDocuments_answers by apply Hst; cbn [bind try_catch].
    assert (Hall : filter (matches st FAll) (docs st) = docs st).
    { induction (docs st) as [|x l IH]; cbn; [reflexivity|now rewrite IH]. }
    rewrite Hall; reflexivity.
  - intros Hd; unfold getFraudStatistics, countDocuments; rewrite Hd.
    destruct (fails st FAll), (fails st FFlagged), (fails st FFlaggedPending);
      reflexivity.
Qed.

End Claims.

(* ------------------------------------------------------------------ *)
(** ** Store failures: two evaluators catch, one does not *)

Lemma checkDuplicateAmounts_total `{NumberToString} st e :
  exists v, checkDuplicateAmounts st e = Ok v.
Proof.
  unfold checkDuplicateAmounts, find; destruct (fails st _); cbn [bind try_catch].
  - eexists; reflexivity.
  - destruct (Nat.ltb 0 _); eexists; reflexivity.
Qed.

Lemma checkRapidSubmissions_total `{NumberToString} st e :
  exists v, checkRapidSubmissions st e = Ok v.
Proof.
  unfold checkRapidSubmissions, find; destruct (fails st _); cbn [bind try_catch].
  - eexists; reflexivity.
  - destruct (Nat.leb 5 _); eexists; reflexivity.
Qed.

(** [checkSuspiciousPatterns] has no [try]: a rejected description query
    rejects the whole [detectFraud] call. *)
Lemma detectFraud_similar_failure `{NumberToString} st now e :
  fails st (FSimilar (userId e) (description e) (_id e)
              (now - 7 * 24 * 60 * 60 * 1000)) = true ->
  checkSuspiciousPatterns st now e = Throw "MongoServerError" /\
  detectFraud st now e = Throw "MongoServerError".
Proof.
  intros Hf.
  assert (Hp : checkSuspiciousPatterns st now e = Throw "MongoServerError").
  { unfold checkSuspiciousPatterns, find; rewrite Hf; reflexivity. }
  split; [exact Hp|].
  unfold detectFraud.
  destruct (checkDuplicateAmounts_total st e) as [d Hd]; rewrite Hd; cbn [bind].
  rewrite Hp; reflexivity.
Qed.

#[local] Existing Instance amount_to_string.

(** C1 (code defect): on a store that rejects every query, the duplicate and
    rapid-submission checks fail open (unflagged), but the Suspicious-Pattern
    check rethrows and so does [detectFraud]; likewise a description "(",
    which the server rejects as a regular expression, makes [detectFraud]
    throw. *)
Theorem detectFraud_throws_on_pattern_query_failure :
  checkDuplicateAmounts ex_down_store ex_candidate = Ok not_flagged /\
  checkRapidSubmissions ex_down_store ex_candidate = Ok not_flagged /\
  checkSuspiciousPatterns ex_down_store T0 ex_candidate = Throw "MongoServerError" /\
  detectFraud ex_down_store T0 ex_candidate = Throw "MongoServerError" /\
  detectFraud ex_regex_error_store T0 ex_paren_candidate = Throw "MongoServerError".
Proof. repeat apply conj; vm_compute; reflexivity. Qed.


(** C8 counterexample: on an empty store [fraudRate] is the number 0, not
    the string "0". *)
Lemma getFraudStatistics_empty_rate_is_number :
  getFraudStatistics ex_empty_store = Ok (mkFraudStats 0 0 0 (JNum 0%Q)) /\
  getFraudStatistics ex_empty_store <> Ok (mkFraudStats 0 0 0 (JStr "0")).
Proof.
  split; [vm_compute; reflexivity|].
  vm_compute; intros H; discriminate H.
Qed.

(** [fraudRate] is computed on doubles: 23 flagged of 160 gives
    14.374999999999998 and so "14.37", 41 of 160 gives "25.62", and
    201 of 20000 gives 1.0049999999999999 and so "1.00", where the exact
    ratios would print "14.38", "25.63" and "1.01". *)
Lemma getFraudStatistics_rate_doubles :
  getFraudStatistics (ex_rate_store 23 160) = Ok (mkFraudStats 160 23 23 (JStr "14.37")) /\
  getFraudStatistics (ex_rate_store 41 160) = Ok (mkFraudStats 160 41 41 (JStr "25.62")) /\
  toFixed2 (js_mul (js_div (inject_Z 201) (inject_Z 20000)) (inject_Z 100)) = "1.00" /\
  toFixed2 (inject_Z 23 / inject_Z 160 * inject_Z 100)%Q = "14.38" /\
  toFixed2 (inject_Z 41 / inject_Z 160 * inject_Z 100)%Q = "25.63" /\
  toFixed2 (inject_Z 201 / inject_Z 20000 * inject_Z 100)%Q = "1.01".
Proof. repeat split; vm_compute; reflexivity. Qed.

(* ------------------------------------------------------------------ *)
(** ** Witnesses *)

Lemma detectFraud_aggregates_witness :
  detectFraud ex_store T0 ex_candidate = Ok ex_decision /\
  exists d p r,
    checkDuplicateAmounts ex_store ex_candidate = Ok d /\
    checkSuspiciousPatterns ex_store T0 ex_candidate = Ok p /\
    checkRapidSubmissions ex_store ex_candidate = Ok r /\
    d_isFlagged ex_decision =
      existsb v_isFlagged [d; p; checkAmountThresholds ex_candidate; r] /\
    d_reason ex_decision =
      join "; " (nonempty_reasons [d; p; checkAmountThresholds ex_candidate; r]) /\
    details ex_decision = filter v_isFlagged [d; p; checkAmountThresholds ex_candidate; r].
Proof.
  split; [vm_compute; reflexivity|].
  apply (detectFraud_aggregates ex_store T0 ex_candidate ex_decision).
  vm_compute; reflexivity.
Defined.

Lemma checkDuplicateAmounts_spec_witness :
  answers ex_store /\
  exists v, checkDuplicateAmounts ex_store ex_candidate = Ok v /\
    (v_isFlagged v = true <->
       exists h, In h (docs ex_store) /\ userId h = userId ex_candidate /\
                 (amount h == amount ex_candidate)%Q /\
                 Z.abs (date h - date ex_candidate) <= 60 * 60 * 1000 /\
                 _id h <> _id ex_candidate) /\
    (v_isFlagged v = true ->
       v_reason v = Some ("Duplicate amount ($" ++ number_to_string (amount ex_candidate) ++
                          ") found within 60 minutes")).
Proof.
  split; [intros f; reflexivity|].
  apply (checkDuplicateAmounts_spec ex_store ex_candidate).
  intros f; reflexivity.
Defined.


Lemma checkRapidSubmissions_spec_witness :
  answers ex_rapid_store /\
  exists v, checkRapidSubmissions ex_rapid_store ex_rapid_candidate = Ok v /\
    (v_isFlagged v = true <-> (5 <= recent_count ex_rapid_store ex_rapid_candidate)%nat) /\
    (v_isFlagged v = true ->
       v_reason v = Some ("Too many submissions (" ++
                          nat_to_string (recent_count ex_rapid_store ex_rapid_candidate + 1) ++
                          ") within 30 minutes")).
Proof.
  split; [intros f; reflexivity|].
  apply (checkRapidSubmissions_spec ex_rapid_store ex_rapid_candidate).
  intros f; reflexivity.
Defined.

Lemma round_number_subcheck_witness :
  answers ex_store /\
  exists v, checkSuspiciousPatterns ex_store T0 ex_candidate = Ok v /\
    ((multiple_of (amount ex_candidate) 100 \/ multiple_of (amount ex_candidate) 50 \/
      multiple_of (amount ex_candidate) 25) ->
       v_isFlagged v = true /\
       exists rest, v_reason v = Some ("Round number amount" ++ rest)) /\
    (~ (multiple_of (amount ex_candidate) 100 \/ multiple_of (amount ex_candidate) 50 \/
        multiple_of (amount ex_candidate) 25) ->
       v_reason v = None \/
       v_reason v = Some "Similar descriptions in recent submissions").
Proof.
  split; [intros f; reflexivity|].
  apply (round_number_subcheck ex_store T0 ex_candidate).
  intros f; reflexivity.
Defined.

Lemma self_exclusion_witness :
  _id ex_persisted = Some 5 /\
  (forall h, _id h = Some 5 ->
     (forall uid amt s t, matches ex_self_store (FDuplicate uid amt s t (_id ex_persisted)) h = false) /\
     (forall uid pat since, matches ex_self_store (FSimilar uid pat (_id ex_persisted) since) h = false) /\
     (forall uid since, matches ex_self_store (FRecent uid since (_id ex_persisted)) h = false)) /\
  (docs ex_self_store = [ex_persisted] -> answers ex_self_store ->
     checkDuplicateAmounts ex_self_store ex_persisted = Ok not_flagged /\
     similar_count ex_self_store T0 ex_persisted = 0%nat /\
     checkSuspiciousPatterns ex_self_store T0 ex_persisted =
       Ok (if is_round (amount ex_persisted) then flagged_with "Round number amount"
           else not_flagged) /\
     checkRapidSubmissions ex_self_store ex_persisted = Ok not_flagged).
Proof.
  split; [reflexivity|].
  apply (self_exclusion ex_self_store T0 ex_persisted 5).
  reflexivity.
Defined.

Lemma getFraudStatistics_fallback_witness :
  (fails ex_down_store FAll = true \/ fails ex_down_store FFlagged = true \/
   fails ex_down_store FFlaggedPending = true) /\
  getFraudStatistics ex_down_store = Ok (mkFraudStats 0 0 0 (JNum 0%Q)) /\
  getFraudStatistics ex_down_store =
    getFraudStatistics (mkStore [] (regex_i ex_down_store) (fun _ => false)).
Proof.
  split; [left; reflexivity|].
  apply (getFraudStatistics_fallback ex_down_store).
  left; reflexivity.
Defined.

(* ------------------------------------------------------------------ *)
(** ** [authRateLimit]: facts *)

Lemma log_of_set m k key v :
  log_of (log_set m key v) k = if String.eqb k key then v else log_of m k.
Proof. unfold log_of, log_set; destruct (String.eqb k key); reflexivity. Qed.

Lemma step_log_of w max m key now k :
  log_of (fst (authRateLimit_step w max m key now)) k =
  if String.eqb k key then
    let valid := filter (fun t => Z.ltb (now - w) t) (log_of m key) in
    if Z.leb max (Z.of_nat (List.length valid)) then valid else (valid ++ [now])%list
  else log_of m k.
Proof.
  assert (H0 : log_of (match m key with Some _ => m | None => log_set m key [] end) key =
               log_of m key).
  { destruct (m key) eqn:E; [reflexivity|]. rewrite log_of_set, String.eqb_refl.
    unfold log_of; now rewrite E. }
  assert (H1 : forall k', String.eqb k' key = false ->
               log_of (match m key with Some _ => m | None => log_set m key [] end) k' =
               log_of m k').
  { intros k' Hk; destruct (m key); [reflexivity|]. now rewrite log_of_set, Hk. }
  unfold authRateLimit_step; cbv zeta; rewrite H0.
  destruct (Z.leb max _); cbn [fst]; rewrite !log_of_set;
    destruct (String.eqb k key) eqn:Ek; try reflexivity; apply H1, Ek.
Qed.

Lemma step_response w max m key now :
  snd (authRateLimit_step w max m key now) =
  if Z.leb max (Z.of_nat (List.length (filter (fun t => Z.ltb (now - w) t) (log_of m key))))
  then RateTooMany (ceil_div w 1000) else RateNext.
Proof.
  unfold authRateLimit_step; cbv zeta.
  assert (H0 : log_of (match m key with Some _ => m | None => log_set m key [] end) key =
               log_of m key).
  { destruct (m key) eqn:E; [reflexivity|]. rewrite log_of_set, String.eqb_refl.
    unfold log_of; now rewrite E. }
  rewrite H0; destruct (Z.leb max _); reflexivity.
Qed.

Lemma step_entry w max m key now k :
  fst (authRateLimit_step w max m key now) k =
  if String.eqb k key then Some (log_of (fst (authRateLimit_step w max m key now)) k)
  else m k.
Proof.
  unfold authRateLimit_step; cbv zeta.
  destruct (Z.leb max _); cbn [fst]; unfold log_of, log_set;
    destruct (String.eqb k key) eqn:Ek; try reflexivity.
  - destruct (m key); [reflexivity|]; now rewrite Ek.
  - destruct (m key); [reflexivity|]; now rewrite Ek.
Qed.

Lemma run_cons w max m key now rest :
  authRateLimit_run w max m ((key, now) :: rest) =
  (fst (authRateLimit_run w max (fst (authRateLimit_step w max m key now)) rest),
   snd (authRateLimit_step w max m key now) ::
   snd (authRateLimit_run w max (fst (authRateLimit_step w max m key now)) rest)).
Proof.
  cbn [authRateLimit_run].
  destruct (authRateLimit_step w max m key now) as [m1 r]; cbn [fst snd].
  destruct (authRateLimit_run w max m1 rest); reflexivity.
Qed.

Lemma run_app w max l1 : forall m l2,
  authRateLimit_run w max m (l1 ++ l2) =
  (fst (authRateLimit_run w max (fst (authRateLimit_run w max m l1)) l2),
   (snd (authRateLimit_run w max m l1) ++
    snd (authRateLimit_run w max (fst (authRateLimit_run w max m l1)) l2))%list).
Proof.
  induction l1 as [|[key now] l1 IH]; intros m l2.
  - cbn; destruct (authRateLimit_run w max m l2); reflexivity.
  - rewrite <- app_comm_cons, !run_cons, IH; reflexivity.
Qed.

Lemma run_length w max l : forall m,
  List.length (snd (authRateLimit_run w max m l)) = List.length l.
Proof.
  induction l as [|[key now] l IH]; intros m; [reflexivity|].
  rewrite run_cons; cbn; now rewrite IH.
Qed.

Lemma accepted_app key l1 : forall rs1 l2 rs2,
  List.length rs1 = List.length l1 ->
  accepted_times key (l1 ++ l2) (rs1 ++ rs2) =
  (accepted_times key l1 rs1 ++ accepted_times key l2 rs2)%list.
Proof.
  induction l1 as [|[k t] l1 IH]; intros [|r rs1] l2 rs2 Hl; try discriminate.
  - reflexivity.
  - cbn in Hl |- *; rewrite IH by lia; now rewrite app_assoc.
Qed.

Lemma accepted_in key l : forall rs x,
  In x (accepted_times key l rs) -> In x (map snd l).
Proof.
  induction l as [|[k t] l IH]; intros [|r rs] x H; cbn in H |- *; try contradiction.
  apply in_app_or in H; destruct H as [H|H].
  - destruct (String.eqb k key && is_next r); [destruct H as [<-|[]]; now left|contradiction].
  - right; eapply IH; exact H.
Qed.

Lemma nondecreasing_snoc l x :
  nondecreasing (l ++ [x]) = true ->
  nondecreasing l = true /\ (forall y, In y l -> y <= x).
Proof.
  induction l as [|a l IH]; [intros _; split; [reflexivity|intros y []]|].
  destruct l as [|b l].
  - cbn; rewrite andb_true_r; intros H; apply Z.leb_le in H.
    split; [reflexivity|intros y [<-|[]]; exact H].
  - cbn [app nondecreasing]; intros H; apply andb_true_iff in H as [Hab H].
    apply Z.leb_le in Hab. destruct (IH H) as [Hnd Hle].
    split.
    + change (Z.leb a b && nondecreasing (b :: l) = true).
      rewrite Hnd; apply andb_true_iff; split; [now apply Z.leb_le|reflexivity].
    + intros y [<-|Hy]; [|now apply Hle].
      specialize (Hle b (or_introl eq_refl)); lia.
Qed.

Lemma filter_filter_weaker {A} (f g : A -> bool) l :
  (forall t, f t = true -> g t = true) -> filter f (filter g l) = filter f l.
Proof.
  intros Hfg; induction l as [|a l IH]; [reflexivity|cbn].
  destruct (g a) eqn:Eg; cbn; destruct (f a) eqn:Ef; rewrite ?IH; try reflexivity.
  rewrite (Hfg a Ef) in Eg; discriminate.
Qed.

Lemma length_filter_mono {A} (f g : A -> bool) l :
  (forall x, In x l -> f x = true -> g x = true) ->
  (List.length (filter f l) <= List.length (filter g l))%nat.
Proof.
  induction l as [|a l IH]; intros Hfg; [reflexivity|cbn].
  assert (IH' := IH (fun x Hx => Hfg x (or_intror Hx))).
  destruct (f a) eqn:Ef.
  - rewrite (Hfg a (or_introl eq_refl) Ef); cbn; lia.
  - destruct (g a); cbn; lia.
Qed.

(** The kept log of an ip agrees, on every window ending at or after the
    last call, with the times of its calls that were let through. *)
Lemma run_log_window w max calls :
  nondecreasing (map snd calls) = true ->
  forall T, (forall x, In x (map snd calls) -> x <= T) ->
  forall k,
    filter (fun t => Z.ltb (T - w) t)
           (log_of (fst (authRateLimit_run w max empty_log calls)) k) =
    filter (fun t => Z.ltb (T - w) t)
           (accepted_times k calls (snd (authRateLimit_run w max empty_log calls))).
Proof.
  induction calls as [|[key now] l IH] using rev_ind; [reflexivity|].
  rewrite map_app; intros Hnd T HT k.
  destruct (nondecreasing_snoc _ _ Hnd) as [Hnd' Hle].
  rewrite run_app, run_cons; cbn [authRateLimit_run fst snd].
  rewrite accepted_app by apply run_length; cbn [accepted_times].
  set (m := fst (authRateLimit_run w max empty_log l)).
  set (acc := accepted_times k l (snd (authRateLimit_run w max empty_log l))).
  assert (HTl : forall x, In x (map snd l) -> x <= T)
    by (intros x Hx; apply HT, in_or_app; now left).
  assert (HTn : now <= T) by (apply HT, in_or_app; right; now left).
  rewrite step_log_of, step_response.
  destruct (String.eqb k key) eqn:Ek.
  - apply String.eqb_eq in Ek; subst k.
    rewrite String.eqb_refl; cbn zeta.
    assert (Hnow := IH Hnd' now Hle key); fold m in Hnow.
    assert (HT' := IH Hnd' T HTl key); fold m in HT'.
    fold acc in Hnow, HT'.
    assert (Hw : forall t, Z.ltb (T - w) t = true -> Z.ltb (now - w) t = true)
      by (intros t Ht; apply Z.ltb_lt in Ht; apply Z.ltb_lt; lia).
    destruct (Z.leb max _); cbn [is_next andb app].
    + rewrite app_nil_r, filter_filter_weaker by exact Hw. exact HT'.
    + rewrite !filter_app, filter_filter_weaker by exact Hw. now rewrite HT'.
  - rewrite String.eqb_sym, Ek; cbn [andb app]; rewrite app_nil_r.
    apply IH; assumption.
Qed.

(** authRateLimit: with a clock that does not go back, a call from [key] at
    [now] is let through exactly when fewer than [max] earlier calls from
    [key] were let through after [now - windowMs]; otherwise it gets 429
    with [retryAfter = Math.ceil(windowMs / 1000)]. *)
Theorem authRateLimit_admits_iff_under_limit (w max : Z) (pre : list (string * Z))
  (key : string) (now : Z) :
  nondecreasing (map snd pre ++ [now]) = true ->
  snd (authRateLimit_step w max (fst (authRateLimit_run w max empty_log pre)) key now) =
  if Z.ltb (Z.of_nat (List.length
              (filter (fun t => Z.ltb (now - w) t)
                 (accepted_times key pre (snd (authRateLimit_run w max empty_log pre))))))
           max
  then RateNext else RateTooMany (ceil_div w 1000).
Proof.
  intros Hnd; destruct (nondecreasing_snoc _ _ Hnd) as [Hnd' Hle].
  rewrite step_response, (run_log_window w max pre Hnd' now Hle key).
  rewrite Z.ltb_antisym; destruct (Z.leb max _); reflexivity.
Qed.

(** authRateLimit: from a fresh middleware, with a clock that does not go
    back and [max >= 0], for every ip and every instant [t] at most [max]
    calls from that ip with a time in [(t - windowMs, t]] are let through. *)
Theorem authRateLimit_window_bound (w max : Z) (calls : list (string * Z))
  (key : string) (t : Z) :
  0 <= max -> nondecreasing (map snd calls) = true ->
  Z.of_nat (List.length
    (filter (in_window w t)
       (accepted_times key calls (snd (authRateLimit_run w max empty_log calls))))) <= max.
Proof.
  intros Hmax; induction calls as [|[k now] l IH] using rev_ind; [cbn; lia|].
  rewrite map_app; intros Hnd; destruct (nondecreasing_snoc _ _ Hnd) as [Hnd' Hle].
  specialize (IH Hnd').
  rewrite run_app, run_cons; cbn [authRateLimit_run fst snd].
  rewrite accepted_app by apply run_length; cbn [accepted_times].
  set (acc := accepted_times key l (snd (authRateLimit_run w max empty_log l))) in *.
  destruct (String.eqb k key &&
            is_next (snd (authRateLimit_step w max
                            (fst (authRateLimit_run w max empty_log l)) k now))) eqn:Eacc;
    cbn [app]; rewrite ?app_nil_r; [|exact IH].
  apply andb_true_iff in Eacc as [Ek Hnext]; apply String.eqb_eq in Ek; subst k.
  rewrite step_response, (run_log_window w max l Hnd' now Hle key) in Hnext.
  fold acc in Hnext.
  destruct (Z.leb max _) eqn:Em; [discriminate|]; apply Z.leb_gt in Em.
  rewrite filter_app; cbn [filter].
  destruct (in_window w t now) eqn:Ew; rewrite ?app_nil_r; [|exact IH].
  unfold in_window in Ew; apply andb_true_iff in Ew as [Ew1 Ew2].
  apply Z.ltb_lt in Ew1; apply Z.leb_le in Ew2.
  assert (Hmono : (List.length (filter (in_window w t) acc) <=
                   List.length (filter (fun x => Z.ltb (now - w) x) acc))%nat).
  { apply length_filter_mono; intros x Hx Hw.
    apply accepted_in, Hle in Hx.
    unfold in_window in Hw; apply andb_true_iff in Hw as [Hw _].
    apply Z.ltb_lt in Hw; apply Z.ltb_lt; lia. }
  rewrite length_app; cbn [List.length]; lia.
Qed.

(** authRateLimit: the Map never forgets an ip — an entry, once created,
    stays, every ip that called has one — and a call from one ip leaves the
    entries of the other ips untouched. *)
Theorem authRateLimit_never_evicts (w max : Z) (calls : list (string * Z)) :
  forall (m : RequestLog) (k : string),
  (m k <> None -> fst (authRateLimit_run w max m calls) k <> None) /\
  (In k (map fst calls) -> fst (authRateLimit_run w max m calls) k <> None) /\
  (~ In k (map fst calls) -> fst (authRateLimit_run w max m calls) k = m k).
Proof.
  induction calls as [|[key now] l IH]; intros m k.
  - cbn; repeat split; tauto.
  - rewrite run_cons; cbn [fst map].
    set (m1 := fst (authRateLimit_step w max m key now)).
    destruct (IH m1 k) as (H1 & H2 & H3).
    assert (Hm1 : String.eqb k key = true -> m1 k <> None).
    { intros E; unfold m1; rewrite step_entry, E; discriminate. }
    assert (Hm1' : String.eqb k key = false -> m1 k = m k).
    { intros E; unfold m1; rewrite step_entry, E; reflexivity. }
    repeat split.
    + intros Hk; apply H1.
      destruct (String.eqb k key) eqn:E; [now apply Hm1|now rewrite Hm1'].
    + intros [Hk|Hk]; [|now apply H2].
      subst key; apply H1, Hm1, String.eqb_refl.
    + intros Hk. rewrite H3 by (intros Hin; apply Hk; now right).
      apply Hm1', String.eqb_neq; intros ->; apply Hk; now left.
Qed.

Lemma authRateLimit_admits_iff_under_limit_witness :
  nondecreasing (map snd [("a", 0); ("a", 10)] ++ [30]) = true /\
  snd (authRateLimit_step 1000 2
         (fst (authRateLimit_run 1000 2 empty_log [("a", 0); ("a", 10)])) "a" 30) =
  if Z.ltb (Z.of_nat (List.length
              (filter (fun t => Z.ltb (30 - 1000) t)
                 (accepted_times "a" [("a", 0); ("a", 10)]
                    (snd (authRateLimit_run 1000 2 empty_log [("a", 0); ("a", 10)]))))))
           2
  then RateNext else RateTooMany (ceil_div 1000 1000).
Proof.
  split; [reflexivity|].
  apply (authRateLimit_admits_iff_under_limit 1000 2 [("a", 0); ("a", 10)] "a" 30).
  reflexivity.
Defined.

Lemma authRateLimit_window_bound_witness :
  0 <= 2 /\ nondecreasing (map snd [("a", 0); ("b", 5); ("a", 10); ("a", 30); ("a", 1500)]) = true /\
  Z.of_nat (List.length
    (filter (in_window 1000 30)
       (accepted_times "a" [("a", 0); ("b", 5); ("a", 10); ("a", 30); ("a", 1500)]
          (snd (authRateLimit_run 1000 2 empty_log
                  [("a", 0); ("b", 5); ("a", 10); ("a", 30); ("a", 1500)]))))) <= 2.
Proof.
  split; [lia|split; [reflexivity|]].
  apply (authRateLimit_window_bound 1000 2
           [("a", 0); ("b", 5); ("a", 10); ("a", 30); ("a", 1500)] "a" 30);
    [lia|reflexivity].
Defined.

(** requireAdmin / requireEmployee: requireAdmin lets a request through
    exactly when [req.user] is set with role "administrator", requireEmployee
    exactly when it is set with role "employee" or "administrator"; so every
    request requireAdmin admits requireEmployee admits too, and a request
    without [req.user] gets 401 from both. *)
Theorem requireAdmin_requireEmployee (user : option ReqUser) :
  (requireAdmin user = MwNext <->
     exists u, user = Some u /\ ru_role u = "administrator") /\
  (requireEmployee user = MwNext <->
     exists u, user = Some u /\ (ru_role u = "employee" \/ ru_role u = "administrator")) /\
  (requireAdmin user = MwNext -> requireEmployee user = MwNext) /\
  (user = None -> requireAdmin user = MwStatus 401 "Authentication required" /\
                  requireEmployee user = MwStatus 401 "Authentication required").
Proof.
  destruct user as [u|].
  - unfold requireAdmin, requireEmployee, requireRole; cbn [existsb].
    destruct (String.eqb_spec (ru_role u) "employee") as [He|He];
    destruct (String.eqb_spec (ru_role u) "administrator") as [Ha|Ha];
      cbn [orb]; repeat split; intros; try discriminate;
      try (eexists; split; [reflexivity|]); try tauto;
      try (match goal with H : exists _, _ |- _ =>
             destruct H as (u' & Hu & Hr); injection Hu as <-; tauto end);
      try congruence.
  - cbn; repeat split; intros; try discriminate;
      try (match goal with H : exists _, _ |- _ => destruct H as (? & ? & _) end);
      discriminate.
Qed.

(** requireOwnershipOrAdmin: an administrator always passes; anyone else
    passes exactly when the field of the route parameters, if truthy, else
    the field of the body, is the string of its own userId; without
    [req.user] the answer is 401. *)
Theorem requireOwnershipOrAdmin_spec (field : string) (params body : string -> JsValue)
  (user : option ReqUser) :
  (user = None -> requireOwnershipOrAdmin field params body user =
                  MwStatus 401 "Authentication required") /\
  forall u, user = Some u ->
  (requireOwnershipOrAdmin field params body user = MwNext <->
     ru_role u = "administrator" \/
     (truthy (params field) = true /\ params field = JString (ru_userId u)) \/
     (truthy (params field) = false /\ body field = JString (ru_userId u))).
Proof.
  split; [intros ->; reflexivity|].
  intros u ->; unfold requireOwnershipOrAdmin, js_or.
  destruct (String.eqb_spec (ru_role u) "administrator") as [Ha|Ha]; cbn [negb andb].
  - split; [tauto|reflexivity].
  - assert (Heq : forall v, js_strict_eq v (JString (ru_userId u)) = true <->
                            v = JString (ru_userId u)).
    { intros []; cbn; split; try discriminate; try congruence.
      - intros E; apply String.eqb_eq in E; now subst.
      - intros E; injection E as ->; apply String.eqb_refl. }
    destruct (truthy (params field)) eqn:Ht;
      destruct (js_strict_eq _ (JString (ru_userId u))) eqn:Es; cbn [negb];
      split; intros H; try discriminate; try reflexivity.
    + right; left; split; [reflexivity|]; now apply Heq.
    + exfalso; destruct H as [H|[[_ H]|[H _]]]; [tauto| |discriminate].
      apply Heq in H; congruence.
    + right; right; split; [reflexivity|]; now apply Heq.
    + exfalso; destruct H as [H|[[H _]|[_ H]]]; [tauto|discriminate|].
      apply Heq in H; congruence.
Qed.

Lemma string_app_assoc (a b c : string) : (a ++ b) ++ c = a ++ (b ++ c).
Proof. induction a as [|x a IH]; cbn; [reflexivity|now rewrite IH]. Qed.

Lemma string_app_nil_r (a : string) : a ++ "" = a.
Proof. induction a as [|x a IH]; cbn; [reflexivity|now rewrite IH]. Qed.

Lemma split_space_aux_no_space (s r cur : string) :
  no_space s = true ->
  split_space_aux (s ++ r) cur = split_space_aux r (cur ++ s).
Proof.
  revert cur; induction s as [|ch s IH]; intros cur Hs.
  - cbn; now rewrite string_app_nil_r.
  - unfold no_space in Hs; cbn in Hs; apply andb_true_iff in Hs as [Hc Hs].
    apply negb_true_iff in Hc; cbn [append split_space_aux]; rewrite Hc.
    rewrite (IH _ Hs), string_app_assoc; reflexivity.
Qed.

Lemma js_split_space_no_space (s : string) :
  no_space s = true -> js_split_space s = [s].
Proof.
  intros Hs; unfold js_split_space.
  rewrite <- (string_app_nil_r s) at 1; rewrite split_space_aux_no_space by exact Hs.
  reflexivity.
Qed.

Lemma js_split_space_two (s t : string) :
  no_space s = true -> no_space t = true ->
  js_split_space (s ++ " " ++ t) = [s; t].
Proof.
  intros Hs Ht; unfold js_split_space.
  rewrite split_space_aux_no_space by exact Hs; cbn [append split_space_aux].
  rewrite Ascii.eqb_refl; f_equal.
  rewrite <- (string_app_nil_r t) at 1; rewrite split_space_aux_no_space by exact Ht.
  reflexivity.
Qed.

Lemma bearer_token_two (s t : string) :
  no_space s = true -> no_space t = true ->
  bearer_token (Some (s ++ " " ++ t)) = Some t.
Proof.
  intros Hs Ht; unfold bearer_token.
  destruct (String.eqb_spec (s ++ " " ++ t) "") as [E|_].
  - destruct s; discriminate.
  - rewrite js_split_space_two by assumption; reflexivity.
Qed.

(** authenticateToken: a request is let through only with a non-empty
    second word in the [authorization] header that [jwt.verify] accepts,
    whose payload's [userId] names an existing active user; [req.user]
    then carries the payload's [userId] and [role] and that user's
    profile fields. *)
Theorem authenticateToken_next (env : AuthEnv) (h : option string) (u : ReqUser) :
  authenticateToken env h = AuthNext u ->
  exists token user,
    bearer_token h = Some token /\ token <> "" /\
    jwt_verify env token = Ok (ru_userId u, ru_role u) /\
    user_findById env (ru_userId u) = Ok (Some user) /\ du_isActive user = true /\
    u = mkReqUser (ru_userId u) (ru_role u) (du_username user) (du_email user)
          (du_firstName user) (du_lastName user).
Proof.
  unfold authenticateToken.
  destruct (bearer_token h) as [token|]; [|discriminate].
  destruct (String.eqb_spec token "") as [|Hne]; [discriminate|].
  destruct (jwt_verify env token) as [[uid role]|name] eqn:Ev; cbn [bind fst].
  - destruct (user_findById env uid) as [[user|]|name] eqn:Eu; cbn [bind].
    + destruct (du_isActive user) eqn:Ea; [|discriminate].
      intros E; injection E as <-; cbn [ru_userId ru_role].
      exists token, user; repeat split; assumption.
    + discriminate.
    + destruct (String.eqb name "TokenExpiredError"); [discriminate|].
      destruct (String.eqb name "JsonWebTokenError"); discriminate.
  - destruct (String.eqb name "TokenExpiredError"); [discriminate|].
    destruct (String.eqb name "JsonWebTokenError"); discriminate.
Qed.

(** authenticateToken: without an [authorization] header, or with one that
    has no space (so no second word, e.g. a bare token), the answer is 401
    "Access token required", whatever [jwt.verify] and the user store do. *)
Theorem authenticateToken_missing_token (env : AuthEnv) (h : option string) :
  (h = None \/ exists s, h = Some s /\ no_space s = true) ->
  authenticateToken env h = AuthStatus 401 "Access token required".
Proof.
  intros [->|(s & -> & Hs)]; [reflexivity|].
  unfold authenticateToken, bearer_token.
  destruct (String.eqb_spec s "") as [->|_]; [reflexivity|].
  rewrite js_split_space_no_space by exact Hs; reflexivity.
Qed.

(** authenticateToken: the first word of the header is never looked at: a
    header "<scheme> <token>" is treated as "Bearer <token>" for every
    scheme without spaces. *)
Theorem authenticateToken_ignores_scheme (env : AuthEnv) (scheme token : string) :
  no_space scheme = true -> no_space token = true ->
  authenticateToken env (Some (scheme ++ " " ++ token)) =
  authenticateToken env (Some ("Bearer " ++ token)).
Proof.
  intros Hs Ht; unfold authenticateToken.
  rewrite bearer_token_two by assumption.
  change ("Bearer " ++ token) with ("Bearer" ++ " " ++ token).
  rewrite bearer_token_two by (assumption || reflexivity); reflexivity.
Qed.

(** authenticateToken, error mapping: for a present token, a rejection of
    [jwt.verify] named "TokenExpiredError" gives 401 "Token expired", one
    named "JsonWebTokenError" gives 401 "Invalid token"; for a verified
    token, a missing or inactive user gives 401 "Invalid token or user not
    active", and a failure of the user lookup (under any other error name)
    gives 500 "Authentication failed". *)
Theorem authenticateToken_errors (env : AuthEnv) (h : option string) (token : string) :
  bearer_token h = Some token -> token <> "" ->
  (jwt_verify env token = Throw "TokenExpiredError" ->
     authenticateToken env h = AuthStatus 401 "Token expired") /\
  (jwt_verify env token = Throw "JsonWebTokenError" ->
     authenticateToken env h = AuthStatus 401 "Invalid token") /\
  (forall uid role, jwt_verify env token = Ok (uid, role) ->
     (user_findById env uid = Ok None ->
        authenticateToken env h = AuthStatus 401 "Invalid token or user not active") /\
     (forall user, user_findById env uid = Ok (Some user) -> du_isActive user = false ->
        authenticateToken env h = AuthStatus 401 "Invalid token or user not active") /\
     (forall name, user_findById env uid = Throw name ->
        name <> "TokenExpiredError" -> name <> "JsonWebTokenError" ->
        authenticateToken env h = AuthStatus 500 "Authentication failed")).
Proof.
  intros Hb Hne; unfold authenticateToken; rewrite Hb.
  apply String.eqb_neq in Hne; rewrite Hne.
  split; [intros E; rewrite E; reflexivity|].
  split; [intros E; rewrite E; reflexivity|].
  intros uid role E; rewrite E; cbn [bind fst].
  split; [intros Eu; rewrite Eu; reflexivity|].
  split; [intros user Eu Ea; rewrite Eu; cbn [bind]; rewrite Ea; reflexivity|].
  intros name Eu N1 N2; rewrite Eu; cbn [bind].
  apply String.eqb_neq in N1, N2; rewrite N1, N2; reflexivity.
Qed.

Lemma has_id_some_eq (i : Z) (x : ExpenseDoc) :
  has_id (Some i) x = true -> _id (fields x) = Some i.
Proof.
  unfold has_id; destruct (_id (fields x)) as [j|]; cbn; [|discriminate].
  intros E; apply Z.eqb_eq in E; now subst.
Qed.

Lemma find_by_id_found (oid_of : string -> option Z) (c : Collection) (id : string)
  (d : ExpenseDoc) :
  find_by_id oid_of c id = Ok (Some d) ->
  exists i, oid_of id = Some i /\ read_fails c = false /\ _id (fields d) = Some i /\
            In d (cdocs c) /\ List.find (has_id (Some i)) (cdocs c) = Some d.
Proof.
  unfold find_by_id; destruct (oid_of id) as [i|]; [|discriminate].
  destruct (read_fails c); [discriminate|].
  intros E; injection E as E; exists i.
  destruct (find_some _ _ E) as [Hin Hid].
  repeat split; auto using has_id_some_eq.
Qed.

Lemma find_replaced (i : Z) (d : ExpenseDoc) (l : list ExpenseDoc) :
  _id (fields d) = Some i -> existsb (has_id (Some i)) l = true ->
  List.find (has_id (Some i)) (map (fun x => if has_id (Some i) x then d else x) l) = Some d.
Proof.
  intros Hd; induction l as [|x l IH]; cbn; [discriminate|].
  destruct (has_id (Some i) x) eqn:Ex; cbn.
  - unfold has_id at 1; rewrite Hd; cbn; now rewrite Z.eqb_refl.
  - rewrite Ex; exact IH.
Qed.

Lemma save_existing_ok (c c' : Collection) (d : ExpenseDoc) :
  save_existing c d = Ok c' ->
  schema_valid d = true /\ write_fails c = false /\
  existsb (has_id (_id (fields d))) (cdocs c) = true /\
  c' = with_docs c (map (fun x => if has_id (_id (fields d)) x then d else x) (cdocs c)).
Proof.
  unfold save_existing.
  destruct (schema_valid d); [|discriminate]; destruct (write_fails c); [discriminate|].
  destruct (existsb _ _) eqn:E; [|discriminate].
  intros H; injection H as <-; auto.
Qed.

Lemma save_new_ok (c c' : Collection) (d : ExpenseDoc) :
  save_new c d = Ok c' ->
  schema_valid d = true /\ write_fails c = false /\
  existsb (has_id (_id (fields d))) (cdocs c) = false /\
  c' = with_docs c (cdocs c ++ [d])%list.
Proof.
  unfold save_new.
  destruct (schema_valid d); [|discriminate]; destruct (write_fails c); [discriminate|].
  destruct (existsb _ _) eqn:E; [discriminate|].
  intros H; injection H as <-; auto.
Qed.

Lemma in_has_id_existsb (i : Z) (d : ExpenseDoc) (l : list ExpenseDoc) :
  In d l -> _id (fields d) = Some i -> existsb (has_id (Some i)) l = true.
Proof.
  intros Hin Hd; apply existsb_exists; exists d; split; [exact Hin|].
  unfold has_id; rewrite Hd; cbn; apply Z.eqb_refl.
Qed.

(** After a successful review the stored document is the reviewed one. *)
Lemma review_doc_ok (oid_of : string -> option Z) (st : string) (c c' : Collection)
  (now : Z) (d d' : ExpenseDoc) (r : string) (notes : option string) (i : Z) :
  _id (fields d) = Some i -> In d (cdocs c) ->
  review_doc oid_of st c now d r notes = Ok (c', d') ->
  status (fields d') = st /\ reviewedBy d' = oid_of r /\ reviewedAt d' = Some now /\
  _id (fields d') = Some i /\ read_fails c' = read_fails c /\
  List.find (has_id (Some i)) (cdocs c') = Some d'.
Proof.
  intros Hd Hin; unfold review_doc; destruct (oid_of r) as [rid|] eqn:Er; [|discriminate].
  destruct (save_existing c _) as [c1|] eqn:Es; cbn [bind]; [|discriminate].
  intros H; injection H as <- <-.
  apply save_existing_ok in Es as (_ & _ & Hex & ->); cbn [fields set_status _id] in *.
  rewrite Hd in Hex |- *; repeat split; try reflexivity.
  cbn [cdocs with_docs]; apply find_replaced; [cbn; exact Hd|exact Hex].
Qed.

Lemma review_doc_valid (oid_of : string -> option Z) (st : string) (c : Collection)
  (now : Z) (d : ExpenseDoc) (r : string) (notes : option string) (rid : Z) :
  oid_of r = Some rid -> schema_valid d = true ->
  existsb (String.eqb st) ["pending"; "approved"; "rejected"] = true ->
  Nat.leb (String.length (match notes with Some n => n | None => "" end)) 1000 = true ->
  write_fails c = false -> In d (cdocs c) ->
  exists c', review_doc oid_of st c now d r notes = Ok (c', mkExpenseDoc
     (set_status (fields d) st) (category d) (receiptUrl d) (Some rid) (Some now)
     (Some (match notes with Some n => n | None => "" end)) (flagReason d) (flaggedAt d)).
Proof.
  intros Er Hv Hst Hn Hw Hin; unfold review_doc; rewrite Er.
  unfold save_existing.
  assert (Hv' : schema_valid (mkExpenseDoc (set_status (fields d) st) (category d)
                  (receiptUrl d) (Some rid) (Some now)
                  (Some (match notes with Some n => n | None => "" end))
                  (flagReason d) (flaggedAt d)) = true).
  { unfold schema_valid in *; cbn [fields set_status amount description status
                                   category reviewNotes] in *.
    rewrite Hst, Hn.
    repeat (apply andb_true_iff in Hv as [Hv ?]).
    repeat (apply andb_true_iff; split); first [assumption | reflexivity]. }
  rewrite Hv', Hw; cbn [negb fields set_status _id].
  destruct (_id (fields d)) as [i|] eqn:Hd.
  - rewrite (in_has_id_existsb i d) by assumption; cbn [bind]; eexists; reflexivity.
  - assert (Hex : existsb (has_id None) (cdocs c) = true).
    { apply existsb_exists; exists d; split; [exact Hin|].
      unfold has_id; rewrite Hd; reflexivity. }
    rewrite Hex; cbn [bind]; eexists; reflexivity.
Qed.

(** createExpense: a 201 answer means the request passed validation, the
    document stored is the candidate that [detectFraud] screened (with a
    fresh [_id], status "pending", no review), its [isFlagged] is the
    detector's verdict and, when flagged, [flagReason] is the detector's
    reason and [flaggedAt] the current time (both left unset otherwise);
    the answer's [fraudCheck] repeats the verdict, and the collection grew
    by exactly this document. *)
Theorem createExpense_persists_decision `{NumberToString} (oid_of : string -> option Z)
  (c c' : Collection) (now newId : Z) (errors : list string) (user : ReqUser) (amt : Q)
  (cat desc : string) (dt : option Z) (url : option string)
  (d : ExpenseDoc) (f : bool) (reason : string) :
  createExpense oid_of c now newId errors user amt cat desc dt url = (c', CCreated d f reason) ->
  errors = [] /\
  exists uid fraudResult,
    let candidate := mkExpense (Some newId) uid amt desc
                       (match dt with Some x => x | None => now end) now false "pending" in
    oid_of (ru_userId user) = Some uid /\
    detectFraud (detector_store c) now candidate = Ok fraudResult /\
    f = d_isFlagged fraudResult /\ reason = d_reason fraudResult /\
    fields d = set_isFlagged candidate f /\
    flagReason d = (if f then Some reason else None) /\
    flaggedAt d = (if f then Some now else None) /\
    category d = cat /\ receiptUrl d = url /\ reviewedBy d = None /\
    existsb (has_id (Some newId)) (cdocs c) = false /\
    cdocs c' = (cdocs c ++ [d])%list.
Proof.
  unfold createExpense; destruct errors as [|? ?]; [|discriminate].
  destruct (oid_of (ru_userId user)) as [uid|]; [|discriminate].
  match goal with |- context [detectFraud ?s ?n ?e] =>
    destruct (detectFraud s n e) as [fr|m] eqn:Ed; [|discriminate] end.
  match goal with |- context [save_new c ?doc] =>
    destruct (save_new c doc) as [c1|m] eqn:Es; [|discriminate] end.
  destruct (populate_fails c1); [discriminate|].
  intros E; injection E as <- <- <- <-.
  apply save_new_ok in Es as (_ & _ & Hex & ->).
  split; [reflexivity|]; exists uid, fr; cbn zeta.
  destruct (d_isFlagged fr) eqn:Ef; cbn [fields flagReason flaggedAt category receiptUrl
    reviewedBy flag_doc cdocs with_docs _id] in *;
    repeat split; try assumption; try reflexivity.
Qed.

(** createExpense: when the fraud screening throws (e.g. a rejected
    pattern query), a valid submission is refused with 500 "Failed to
    create expense" and nothing is stored. *)
Theorem createExpense_blocked_by_detector `{NumberToString} (oid_of : string -> option Z)
  (c : Collection) (now newId : Z) (user : ReqUser) (amt : Q)
  (cat desc : string) (dt : option Z) (url : option string) (uid : Z) (m : string) :
  oid_of (ru_userId user) = Some uid ->
  detectFraud (detector_store c) now
    (mkExpense (Some newId) uid amt desc (match dt with Some x => x | None => now end)
       now false "pending") = Throw m ->
  createExpense oid_of c now newId [] user amt cat desc dt url =
  (c, CError 500 "Failed to create expense").
Proof.
  intros Hu Hd; unfold createExpense; rewrite Hu, Hd; reflexivity.
Qed.

(** createExpense never half-writes: either the collection is left as it
    was and the answer is not 201, or exactly one schema-valid document
    with the fresh [_id] (absent before) is appended. *)
Theorem createExpense_writes_at_most_one `{NumberToString} (oid_of : string -> option Z)
  (c : Collection) (now newId : Z) (errors : list string) (user : ReqUser) (amt : Q)
  (cat desc : string) (dt : option Z) (url : option string) :
  let r := createExpense oid_of c now newId errors user amt cat desc dt url in
  (fst r = c /\ forall d f reason, snd r <> CCreated d f reason) \/
  (exists d, fst r = with_docs c (cdocs c ++ [d])%list /\ _id (fields d) = Some newId /\
             schema_valid d = true /\ existsb (has_id (Some newId)) (cdocs c) = false).
Proof.
  cbn zeta; unfold createExpense.
  destruct errors as [|? ?]; [|left; split; [reflexivity|discriminate]].
  destruct (oid_of (ru_userId user)) as [uid|]; [|left; split; [reflexivity|discriminate]].
  match goal with |- context [detectFraud ?s ?n ?e] =>
    destruct (detectFraud s n e) as [fr|m] eqn:Ed;
      [|left; split; [reflexivity|discriminate]] end.
  destruct (d_isFlagged fr);
  match goal with |- context [save_new c ?doc] =>
    destruct (save_new c doc) as [c1|m] eqn:Es;
      [|left; split; [reflexivity|discriminate]] end;
  right; apply save_new_ok in Es as (Hv & _ & Hex & ->);
  match type of Hv with schema_valid ?doc = true => exists doc end;
  cbn [fields flag_doc set_isFlagged _id] in Hex |- *;
  (repeat split; try assumption; destruct (populate_fails _); reflexivity).
Qed.

(** updateExpense: for a validated request on an existing expense, anyone
    but its owner (administrators included) gets 403 "Access denied", and
    the owner gets 400 once the expense has left "pending"; in both cases
    the collection is unchanged. *)
Theorem updateExpense_guards `{NumberToString} (oid_str : Z -> string)
  (oid_of : string -> option Z) (c : Collection) (now : Z) (user : ReqUser) (id : string)
  (amt : option Q) (cat desc : option string) (dt : option Z) (url : option string)
  (d : ExpenseDoc) :
  find_by_id oid_of c id = Ok (Some d) ->
  (oid_str (userId (fields d)) <> ru_userId user ->
     updateExpense oid_str oid_of c now [] user id amt cat desc dt url =
     (c, CError 403 "Access denied")) /\
  (oid_str (userId (fields d)) = ru_userId user -> status (fields d) <> "pending" ->
     updateExpense oid_str oid_of c now [] user id amt cat desc dt url =
     (c, CError 400 "Cannot update expense that has already been reviewed")).
Proof.
  intros Hf; unfold updateExpense; rewrite Hf; split.
  - intros Hne; apply String.eqb_neq in Hne; rewrite Hne; reflexivity.
  - intros Heq Hs; rewrite Heq, String.eqb_refl; apply String.eqb_neq in Hs; rewrite Hs.
    reflexivity.
Qed.

(** updateExpense: a successful update keeps the expense's [_id], owner
    and "pending" status and replaces it in place. Without a truthy
    [amount] and without a [date] the fraud fields are kept as they were;
    with either, the merged expense is screened again and its fraud fields
    are overwritten by the new verdict, so a flagged expense can lose its
    flag ([flagReason] becomes the joined reasons, "" when clean, and
    [flaggedAt] is cleared). *)
Theorem updateExpense_flags `{NumberToString} (oid_str : Z -> string)
  (oid_of : string -> option Z) (c c' : Collection) (now : Z) (user : ReqUser) (id : string)
  (amt : option Q) (cat desc : option string) (dt : option Z) (url : option string)
  (d d' : ExpenseDoc) (m : string) :
  find_by_id oid_of c id = Ok (Some d) ->
  updateExpense oid_str oid_of c now [] user id amt cat desc dt url = (c', COk m d') ->
  _id (fields d') = _id (fields d) /\ userId (fields d') = userId (fields d) /\
  status (fields d') = "pending" /\
  cdocs c' = map (fun x => if has_id (_id (fields d)) x then d' else x) (cdocs c) /\
  (amount_truthy amt = false -> dt = None ->
     isFlagged (fields d') = isFlagged (fields d) /\ flagReason d' = flagReason d /\
     flaggedAt d' = flaggedAt d) /\
  (amount_truthy amt = true \/ dt <> None ->
     exists fraudResult,
       detectFraud (detector_store c) now (set_isFlagged (fields d') (isFlagged (fields d))) =
         Ok fraudResult /\
       isFlagged (fields d') = d_isFlagged fraudResult /\
       flagReason d' = Some (d_reason fraudResult) /\
       flaggedAt d' = (if d_isFlagged fraudResult then Some now else None)).
Proof.
  intros Hf; unfold updateExpense; rewrite Hf.
  destruct (String.eqb (oid_str (userId (fields d))) (ru_userId user)); [|discriminate].
  destruct (String.eqb_spec (status (fields d)) "pending") as [Hp|]; [|discriminate].
  cbn [negb].
  destruct (amount_truthy amt) eqn:Ea; destruct dt as [x|]; cbn [orb].
  1-3: match goal with |- context [detectFraud ?s ?n ?e] =>
         destruct (detectFraud s n e) as [fr|msg] eqn:Ed; [|discriminate] end;
       match goal with |- context [save_existing ?cc ?doc] =>
         destruct (save_existing cc doc) as [c1|msg] eqn:Es; [|discriminate] end;
       destruct (populate_fails c1); [discriminate|];
       intros E; injection E as <- <- <-;
       apply save_existing_ok in Es as (_ & _ & _ & ->);
       cbn [fields flag_doc set_isFlagged _id userId status isFlagged flagReason flaggedAt
            cdocs with_docs] in *;
       (split; [reflexivity|]); (split; [reflexivity|]); (split; [exact Hp|]);
       (split; [reflexivity|]);
       (split; [intros Ha Hd; discriminate|]);
       intros _; exists fr; repeat split; exact Ed.
  match goal with |- context [save_existing ?cc ?doc] =>
    destruct (save_existing cc doc) as [c1|msg] eqn:Es; [|discriminate] end.
  destruct (populate_fails c1); [discriminate|].
  intros E; injection E as <- <- <-.
  apply save_existing_ok in Es as (_ & _ & _ & ->).
  cbn [fields _id userId status isFlagged flagReason flaggedAt cdocs with_docs].
  repeat split; try assumption.
  intros [Ha|Hd]; [discriminate|congruence].
Qed.

(** deleteExpense: an expense is deleted exactly when it exists, the
    caller owns it (administrators get no exception), it is still
    "pending" and the write goes through; the delete removes that [_id]
    and nothing else, and the answer is "deleted". Every other answer
    leaves the collection unchanged. *)
Theorem deleteExpense_spec (oid_str : Z -> string) (oid_of : string -> option Z)
  (c : Collection) (user : ReqUser) (id : string) :
  (forall c' r,
   deleteExpense oid_str oid_of c user id = (c', r) ->
   (r = CDeleted /\
    exists d, find_by_id oid_of c id = Ok (Some d) /\
      oid_str (userId (fields d)) = ru_userId user /\ status (fields d) = "pending" /\
      write_fails c = false /\
      c' = with_docs c (filter (fun x => negb (has_id (_id (fields d)) x)) (cdocs c))) \/
   (r <> CDeleted /\ c' = c)) /\
  (forall d, find_by_id oid_of c id = Ok (Some d) ->
   oid_str (userId (fields d)) = ru_userId user -> status (fields d) = "pending" ->
   write_fails c = false ->
   deleteExpense oid_str oid_of c user id =
     (with_docs c (filter (fun x => negb (has_id (_id (fields d)) x)) (cdocs c)), CDeleted)).
Proof.
  split.
  - intros c' r; unfold deleteExpense.
    destruct (find_by_id oid_of c id) as [[d|]|msg] eqn:Hf;
      [|intros E; injection E as <- <-; right; split; [discriminate|reflexivity]
       |intros E; injection E as <- <-; right; split; [discriminate|reflexivity]].
    destruct (String.eqb_spec (oid_str (userId (fields d))) (ru_userId user)) as [Ho|];
      cbn [negb]; [|intros E; injection E as <- <-; right; split; [discriminate|reflexivity]].
    destruct (String.eqb_spec (status (fields d)) "pending") as [Hp|];
      cbn [negb]; [|intros E; injection E as <- <-; right; split; [discriminate|reflexivity]].
    destruct (write_fails c) eqn:Hw;
      [intros E; injection E as <- <-; right; split; [discriminate|reflexivity]|].
    intros E; injection E as <- <-; left; split; [reflexivity|].
    exists d; repeat split; assumption.
  - intros d Hf Ho Hp Hw; unfold deleteExpense; rewrite Hf.
    apply String.eqb_eq in Ho, Hp; rewrite Ho, Hp, Hw; reflexivity.
Qed.

(** approveExpense / rejectExpense: a successful approval stores the
    expense as "approved" and a successful rejection as "rejected", with
    the reviewer and the time recorded; and a review is final: in any
    state of the collection where the stored expense is no longer
    "pending", every approval or rejection of it, by anyone, gets 400
    "Expense has already been reviewed" and changes nothing, the state
    right after a review being one of them. *)
Theorem review_is_final (oid_of : string -> option Z) (c : Collection) (now : Z)
  (user : ReqUser) (id : string) (notes : option string) :
  (forall c' m d', approveExpense oid_of c now user id notes = (c', COk m d') ->
   m = "Expense approved successfully" /\ status (fields d') = "approved" /\
   reviewedBy d' = oid_of (ru_userId user) /\ reviewedAt d' = Some now /\
   find_by_id oid_of c' id = Ok (Some d')) /\
  (forall c' m d', rejectExpense oid_of c now user id notes = (c', COk m d') ->
   m = "Expense rejected successfully" /\ status (fields d') = "rejected" /\
   reviewedBy d' = oid_of (ru_userId user) /\ reviewedAt d' = Some now /\
   find_by_id oid_of c' id = Ok (Some d')) /\
  (forall c0 d, find_by_id oid_of c0 id = Ok (Some d) -> status (fields d) <> "pending" ->
   forall now' user' notes',
   approveExpense oid_of c0 now' user' id notes' =
     (c0, CError 400 "Expense has already been reviewed") /\
   rejectExpense oid_of c0 now' user' id notes' =
     (c0, CError 400 "Expense has already been reviewed")).
Proof.
  assert (Hrev : forall st c' d',
    (exists d, find_by_id oid_of c id = Ok (Some d) /\
               review_doc oid_of st c now d (ru_userId user) notes = Ok (c', d')) ->
    status (fields d') = st /\ reviewedBy d' = oid_of (ru_userId user) /\
    reviewedAt d' = Some now /\ find_by_id oid_of c' id = Ok (Some d')).
  { intros st c' d' (d & Hf & Hr).
    destruct (find_by_id_found _ _ _ _ Hf) as (i & Hi & Hrf & Hid & Hin & _).
    destruct (review_doc_ok _ _ _ _ _ _ _ _ _ _ Hid Hin Hr)
      as (Hs & Hby & Hat & _ & Hrf' & Hfind).
    repeat split; try assumption.
    unfold find_by_id; rewrite Hi, Hrf', Hrf, Hfind; reflexivity. }
  split; [|split].
  - intros c' m d' E; unfold approveExpense, approve in E.
    destruct (find_by_id oid_of c id) as [[d|]|msg] eqn:Hf; [|discriminate|discriminate].
    destruct (negb (String.eqb (status (fields d)) "pending")); [discriminate|].
    destruct (review_doc oid_of "approved" c now d (ru_userId user) notes)
      as [[c1 d1]|msg] eqn:Er; [|discriminate].
    destruct (populate_fails c1); [discriminate|].
    injection E as <- <- <-; split; [reflexivity|].
    apply (Hrev "approved"); exists d; split; [reflexivity|exact Er].
  - intros c' m d' E; unfold rejectExpense, reject in E.
    destruct (find_by_id oid_of c id) as [[d|]|msg] eqn:Hf; [|discriminate|discriminate].
    destruct (negb (String.eqb (status (fields d)) "pending")); [discriminate|].
    destruct (review_doc oid_of "rejected" c now d (ru_userId user) notes)
      as [[c1 d1]|msg] eqn:Er; [|discriminate].
    destruct (populate_fails c1); [discriminate|].
    injection E as <- <- <-; split; [reflexivity|].
    apply (Hrev "rejected"); exists d; split; [reflexivity|exact Er].
  - intros c0 d Hf Hst now' user' notes'.
    unfold approveExpense, rejectExpense; rewrite Hf.
    apply String.eqb_neq in Hst; rewrite Hst; split; reflexivity.
Qed.

(** approveExpense: an existing, valid, pending expense is approved for
    every reviewer whose id casts to an ObjectId, with nothing relating
    the reviewer to the expense: an administrator can approve an expense
    they submitted themselves. *)
Theorem approveExpense_any_reviewer (oid_of : string -> option Z) (c : Collection) (now : Z)
  (user : ReqUser) (id : string) (notes : option string) (d : ExpenseDoc) (rid : Z) :
  find_by_id oid_of c id = Ok (Some d) -> status (fields d) = "pending" ->
  schema_valid d = true -> oid_of (ru_userId user) = Some rid ->
  write_fails c = false -> populate_fails c = false ->
  Nat.leb (String.length (match notes with Some n => n | None => "" end)) 1000 = true ->
  exists c', approveExpense oid_of c now user id notes =
    (c', COk "Expense approved successfully"
           (mkExpenseDoc (set_status (fields d) "approved") (category d) (receiptUrl d)
              (Some rid) (Some now) (Some (match notes with Some n => n | None => "" end))
              (flagReason d) (flaggedAt d))).
Proof.
  intros Hf Hp Hv Hr Hw Hpop Hn.
  destruct (find_by_id_found _ _ _ _ Hf) as (i & _ & _ & _ & Hin & _).
  destruct (review_doc_valid oid_of "approved" c now d (ru_userId user) notes rid
              Hr Hv eq_refl Hn Hw Hin) as [c' Hrev].
  exists c'; unfold approveExpense, approve; rewrite Hf, Hp; cbn [String.eqb negb].
  change (String.eqb "pending" "pending") with true; cbn [negb].
  rewrite Hrev.
  unfold review_doc in Hrev; rewrite Hr in Hrev.
  match type of Hrev with context [save_existing ?cc ?doc] =>
    destruct (save_existing cc doc) as [c2|msg] eqn:Es; [|discriminate] end.
  cbn [bind] in Hrev; injection Hrev as Hc; subst c'.
  apply save_existing_ok in Es as (_ & _ & _ & ->).
  cbn [populate_fails with_docs]; rewrite Hpop; reflexivity.
Qed.

(** getExpenseById: an expense is shown only to an administrator or to
    the caller whose id is the expense's owner. *)
Theorem getExpenseById_access (oid_str : Z -> string) (oid_of : string -> option Z)
  (c : Collection) (user : ReqUser) (id : string) (d : ExpenseDoc) :
  getExpenseById oid_str oid_of c user id = CFound d ->
  find_by_id oid_of c id = Ok (Some d) /\
  (ru_role user = "administrator" \/ oid_str (userId (fields d)) = ru_userId user).
Proof.
  unfold getExpenseById.
  destruct (find_by_id oid_of c id) as [[e|]|msg]; try discriminate.
  destruct (populate_fails c); [discriminate|].
  destruct (String.eqb_spec (ru_role user) "administrator") as [Ha|Ha].
  - intros E; injection E as <-; auto.
  - destruct (user_exists c (userId (fields e))); [|discriminate]; cbn [negb].
    destruct (String.eqb_spec (oid_str (userId (fields e))) (ru_userId user)); cbn [negb];
      [|discriminate].
    intros E; injection E as <-; auto.
Qed.

(** getExpenseById: when the owner of an expense no longer exists, a
    non-administrator asking for it gets 500 "Failed to get expense"
    instead of 403 (the populated [userId] is null). *)
Theorem getExpenseById_missing_owner (oid_str : Z -> string) (oid_of : string -> option Z)
  (c : Collection) (user : ReqUser) (id : string) (d : ExpenseDoc) :
  find_by_id oid_of c id = Ok (Some d) -> populate_fails c = false ->
  ru_role user <> "administrator" -> user_exists c (userId (fields d)) = false ->
  getExpenseById oid_str oid_of c user id = CError 500 "Failed to get expense".
Proof.
  intros Hf Hp Ha Hu; unfold getExpenseById; rewrite Hf, Hp.
  apply String.eqb_neq in Ha; rewrite Ha, Hu; reflexivity.
Qed.

(** getExpenseById, deleteExpense, approveExpense, rejectExpense: these
    handlers never read the route's validation result, so an [id] that is
    not an ObjectId gets 500 (the cast fails), never the 400 "Invalid
    expense ID" of the route, and the collection is unchanged. *)
Theorem malformed_id_gives_500 `{NumberToString} (oid_str : Z -> string)
  (oid_of : string -> option Z) (c : Collection) (now : Z) (user : ReqUser) (id : string)
  (notes : option string) :
  oid_of id = None ->
  getExpenseById oid_str oid_of c user id = CError 500 "Failed to get expense" /\
  deleteExpense oid_str oid_of c user id = (c, CError 500 "Failed to delete expense") /\
  approveExpense oid_of c now user id notes = (c, CError 500 "Failed to approve expense") /\
  rejectExpense oid_of c now user id notes = (c, CError 500 "Failed to reject expense").
Proof.
  intros Hi; unfold getExpenseById, deleteExpense, approveExpense, rejectExpense, find_by_id.
  rewrite Hi; repeat split.
Qed.

Lemma filter_false_nil {A} (l : list A) : filter (fun _ => false) l = [].
Proof. induction l; cbn; auto. Qed.

Lemma filter_true_id {A} (l : list A) : filter (fun _ => true) l = l.
Proof. induction l as [|x l IH]; cbn; [reflexivity|now rewrite IH]. Qed.

Lemma status_partition (l : list ExpenseDoc) :
  Forall (fun d => In (status (fields d)) ["pending"; "approved"; "rejected"]) l ->
  (List.length (filter (fun d => String.eqb (status (fields d)) "pending") l) +
   List.length (filter (fun d => String.eqb (status (fields d)) "approved") l) +
   List.length (filter (fun d => String.eqb (status (fields d)) "rejected") l))%nat =
  List.length l.
Proof.
  induction l as [|d l IH]; intros Hall; [reflexivity|].
  inversion Hall as [|? ? Hd Hl]; subst; specialize (IH Hl).
  cbn [filter]; destruct Hd as [E|[E|[E|[]]]]; rewrite <- E; cbn; lia.
Qed.

Lemma length_filter_le {A} (p : A -> bool) (l : list A) :
  (List.length (filter p l) <= List.length l)%nat.
Proof. induction l as [|x l IH]; cbn; [lia|destruct (p x); cbn; lia]. Qed.

Lemma filter_filter_andb {A} (p q : A -> bool) (l : list A) :
  filter q (filter p l) = filter (fun x => p x && q x) l.
Proof.
  induction l as [|x l IH]; cbn; [reflexivity|].
  destruct (p x); cbn; [destruct (q x); cbn; now rewrite IH|exact IH].
Qed.

(** getExpenseStats: for a non-administrator every count (total, pending,
    approved, rejected, flagged) covers exactly their own expenses and no
    fraud statistics are attached, but [totalAmount] is always 0, whatever
    they have submitted: the uncast string [userId] in the [$match] of the
    aggregation matches no document. *)
Theorem getExpenseStats_nonadmin_total_zero (oid_of : string -> option Z)
  (mongo_sum : list Q -> Q) (c : Collection) (user : ReqUser) (s : ExpenseStats) (uid : Z) :
  ru_role user <> "administrator" -> oid_of (ru_userId user) = Some uid ->
  getExpenseStats oid_of mongo_sum c user = Ok s ->
  s_totalAmount s = 0%Q /\ s_fraudStats s = None /\
  s_totalExpenses s = List.length (filter (fun d => Z.eqb (userId (fields d)) uid) (cdocs c)) /\
  s_pendingExpenses s = List.length (filter (fun d => Z.eqb (userId (fields d)) uid &&
                                       String.eqb (status (fields d)) "pending") (cdocs c)) /\
  s_approvedExpenses s = List.length (filter (fun d => Z.eqb (userId (fields d)) uid &&
                                       String.eqb (status (fields d)) "approved") (cdocs c)) /\
  s_rejectedExpenses s = List.length (filter (fun d => Z.eqb (userId (fields d)) uid &&
                                       String.eqb (status (fields d)) "rejected") (cdocs c)) /\
  s_flaggedExpenses s = List.length (filter (fun d => Z.eqb (userId (fields d)) uid &&
                                       isFlagged (fields d)) (cdocs c)).
Proof.
  intros Ha Hu; unfold getExpenseStats.
  apply String.eqb_neq in Ha; rewrite Ha; cbn [negb bind]; rewrite Hu; cbn [bind].
  destruct (read_fails c); [discriminate|]; cbn [bind].
  intros E; injection E as <-; cbn [s_totalAmount s_fraudStats s_totalExpenses
    s_pendingExpenses s_approvedExpenses s_rejectedExpenses s_flaggedExpenses].
  rewrite filter_false_nil, !filter_filter_andb; repeat split.
Qed.

(** getExpenseStats: when every stored status is one of the schema's
    three, the pending, approved and rejected counts add up to the total,
    and the flagged count never exceeds it; an administrator's counts
    cover the whole collection, [totalAmount] is the server's [$sum] over
    every stored amount (0 for an empty collection), and the fraud
    statistics are attached. *)
Theorem getExpenseStats_counts (oid_of : string -> option Z) (mongo_sum : list Q -> Q)
  (c : Collection) (user : ReqUser) (s : ExpenseStats) :
  getExpenseStats oid_of mongo_sum c user = Ok s ->
  (Forall (fun d => In (status (fields d)) ["pending"; "approved"; "rejected"]) (cdocs c) ->
   (s_pendingExpenses s + s_approvedExpenses s + s_rejectedExpenses s)%nat =
     s_totalExpenses s) /\
  (s_flaggedExpenses s <= s_totalExpenses s)%nat /\
  (ru_role user = "administrator" ->
   s_totalExpenses s = List.length (cdocs c) /\
   s_pendingExpenses s =
     List.length (filter (fun d => String.eqb (status (fields d)) "pending") (cdocs c)) /\
   s_approvedExpenses s =
     List.length (filter (fun d => String.eqb (status (fields d)) "approved") (cdocs c)) /\
   s_rejectedExpenses s =
     List.length (filter (fun d => String.eqb (status (fields d)) "rejected") (cdocs c)) /\
   s_flaggedExpenses s = List.length (filter (fun d => isFlagged (fields d)) (cdocs c)) /\
   s_totalAmount s = (match cdocs c with
                      | [] => 0%Q
                      | _ => mongo_sum (map (fun d => amount (fields d)) (cdocs c))
                      end) /\
   exists fs, getFraudStatistics (detector_store c) = Ok fs /\ s_fraudStats s = Some fs).
Proof.
  unfold getExpenseStats.
  destruct (String.eqb_spec (ru_role user) "administrator") as [Ha|Ha].
  - cbn [bind]; destruct (read_fails c); [discriminate|].
    destruct (getFraudStatistics (detector_store c)) as [fs|m] eqn:Ef; cbn [bind];
      [|discriminate].
    intros E; injection E as <-; cbn [s_pendingExpenses s_approvedExpenses
      s_rejectedExpenses s_totalExpenses s_flaggedExpenses s_totalAmount s_fraudStats].
    rewrite !filter_true_id.
    split; [apply status_partition|split; [apply length_filter_le|]].
    intros _; repeat split; exists fs; split; [reflexivity|reflexivity].
  - cbn [bind]; destruct (oid_of (ru_userId user)) as [i|]; cbn [bind]; [|discriminate].
    destruct (read_fails c); [discriminate|]; cbn [bind].
    intros E; injection E as <-; cbn [s_pendingExpenses s_approvedExpenses
      s_rejectedExpenses s_totalExpenses s_flaggedExpenses].
    split; [|split; [apply length_filter_le|intros; contradiction]].
    intros Hall; apply status_partition.
    apply Forall_forall; intros d Hd; apply filter_In in Hd as [Hd _].
    exact (proj1 (Forall_forall _ _) Hall d Hd).
Qed.

Lemma insert_desc_in (d x : ExpenseDoc) (l : list ExpenseDoc) :
  In x (insert_desc d l) -> x = d \/ In x l.
Proof.
  induction l as [|y l IH]; cbn; [intros [->|[]]; now left|].
  destruct (Z.ltb _ _); cbn; [intros [->|H]; [now left|now right]|].
  intros [->|H]; [right; now left|]; destruct (IH H); [now left|right; now right].
Qed.

Lemma firstn_in {A} (n : nat) (x : A) (l : list A) : In x (firstn n l) -> In x l.
Proof. intros H; rewrite <- (firstn_skipn n l); apply in_or_app; now left. Qed.

Lemma mongo_limit_in {A} (n : nat) (x : A) (l : list A) : In x (mongo_limit n l) -> In x l.
Proof. destruct n as [|n]; [exact id|apply firstn_in]. Qed.

Lemma skipn_in {A} (n : nat) (x : A) (l : list A) : In x (skipn n l) -> In x l.
Proof. intros H; rewrite <- (firstn_skipn n l); apply in_or_app; now right. Qed.

Lemma sort_desc_in (x : ExpenseDoc) (l : list ExpenseDoc) : In x (sort_desc l) -> In x l.
Proof.
  induction l as [|y l IH]; cbn; [tauto|].
  intros H; apply insert_desc_in in H as [->|H]; [now left|right; now apply IH].
Qed.

(** getExpenses: a non-administrator's listing, page and [total] alike,
    contains only their own expenses, whatever [userId] (or other filter)
    the query string names; an administrator's [userId] parameter, when
    truthy, restricts the listing to that user, and without it nothing
    restricts the owner. *)
Theorem getExpenses_scoped (oid_of : string -> option Z) (date_of : string -> option Z)
  (float_of : string -> option Q) (c : Collection) (user : ReqUser)
  (status_ category_ isFlagged_ startDate endDate minAmount maxAmount userId_ : option string)
  (skip limit : nat) (es : list ExpenseDoc) (total : nat) :
  getExpenses oid_of date_of float_of c user status_ category_ isFlagged_ startDate endDate
    minAmount maxAmount userId_ skip limit = Ok (es, total) ->
  let owner := if String.eqb (ru_role user) "administrator" then keep_truthy userId_
               else Some (ru_userId user) in
  (forall u, owner = Some u ->
     exists uid, oid_of u = Some uid /\
       Forall (fun d => userId (fields d) = uid) es /\
       total = List.length (filter (fun d => Z.eqb (userId (fields d)) uid &&
                  match cast_query oid_of date_of float_of
                          (expense_query user status_ category_ isFlagged_ startDate
                             endDate minAmount maxAmount userId_) with
                  | Ok m => m d | Throw _ => false end) (cdocs c))) /\
  Forall (fun d => In d (cdocs c)) es.
Proof.
  unfold getExpenses; cbn zeta.
  destruct (cast_query oid_of date_of float_of _) as [m|err] eqn:Eq; cbn [bind];
    [|discriminate].
  destruct (read_fails c || populate_fails c); [discriminate|].
  intros E; injection E as <- <-.
  assert (Hin : forall x, In x (mongo_limit limit (skipn skip (sort_desc (filter m (cdocs c))))) ->
                          In x (cdocs c) /\ m x = true).
  { intros x Hx; apply mongo_limit_in, skipn_in in Hx.
    apply sort_desc_in, filter_In in Hx; exact Hx. }
  split; [|apply Forall_forall; intros x Hx; apply (Hin x Hx)].
  intros u Hu.
  unfold cast_query, expense_query in Eq; cbn [q_userId] in Eq.
  set (owner' := if negb (String.eqb (ru_role user) "administrator") then Some (ru_userId user)
                 else keep_truthy userId_) in Eq.
  assert (Ho : owner' = Some u).
  { unfold owner'; destruct (String.eqb (ru_role user) "administrator"); exact Hu. }
  rewrite Ho in Eq; cbn [cast_opt] in Eq.
  destruct (oid_of u) as [uid|]; cbn [bind] in Eq; [|discriminate].
  exists uid; split; [reflexivity|].
  assert (Hm : forall x, m x = true -> userId (fields x) = uid).
  { intros x Hx.
    repeat match type of Eq with
    | context [bind ?e _] => destruct e; cbn [bind] in Eq; [|discriminate]
    end.
    injection Eq as <-; apply andb_true_iff in Hx as [Hx _].
    repeat (apply andb_true_iff in Hx as [Hx _]).
    now apply Z.eqb_eq. }
  split.
  - apply Forall_forall; intros x Hx; apply Hm, (Hin x Hx).
  - f_equal; apply filter_ext; intros x.
    destruct (m x) eqn:Emx; [rewrite (Hm x Emx), Z.eqb_refl; reflexivity|].
    now rewrite andb_false_r.
Qed.

Lemma authenticateToken_next_witness :
  authenticateToken ex_env (Some "Bearer tok") = AuthNext ex_alice /\
  exists token user,
    bearer_token (Some "Bearer tok") = Some token /\ token <> "" /\
    jwt_verify ex_env token = Ok (ru_userId ex_alice, ru_role ex_alice) /\
    user_findById ex_env (ru_userId ex_alice) = Ok (Some user) /\ du_isActive user = true /\
    ex_alice = mkReqUser (ru_userId ex_alice) (ru_role ex_alice) (du_username user)
                 (du_email user) (du_firstName user) (du_lastName user).
Proof.
  split; [reflexivity|].
  apply (authenticateToken_next ex_env (Some "Bearer tok") ex_alice); reflexivity.
Defined.

Lemma authenticateToken_missing_token_witness :
  (Some "tok" = None \/ exists s, Some "tok" = Some s /\ no_space s = true) /\
  authenticateToken ex_env (Some "tok") = AuthStatus 401 "Access token required".
Proof.
  assert (H : Some "tok" = None \/ exists s, Some "tok" = Some s /\ no_space s = true)
    by (right; exists "tok"; split; reflexivity).
  split; [exact H|apply (authenticateToken_missing_token ex_env (Some "tok") H)].
Defined.

Lemma authenticateToken_ignores_scheme_witness :
  no_space "Basic" = true /\ no_space "tok" = true /\
  authenticateToken ex_env (Some ("Basic" ++ " " ++ "tok")) =
  authenticateToken ex_env (Some ("Bearer " ++ "tok")).
Proof.
  split; [reflexivity|split; [reflexivity|]].
  apply (authenticateToken_ignores_scheme ex_env "Basic" "tok"); reflexivity.
Defined.

Lemma authenticateToken_errors_witness :
  bearer_token (Some "Bearer ghost") = Some "ghost" /\ "ghost" <> "" /\
  (jwt_verify ex_env "ghost" = Throw "TokenExpiredError" ->
     authenticateToken ex_env (Some "Bearer ghost") = AuthStatus 401 "Token expired") /\
  (jwt_verify ex_env "ghost" = Throw "JsonWebTokenError" ->
     authenticateToken ex_env (Some "Bearer ghost") = AuthStatus 401 "Invalid token") /\
  (forall uid role, jwt_verify ex_env "ghost" = Ok (uid, role) ->
     (user_findById ex_env uid = Ok None ->
        authenticateToken ex_env (Some "Bearer ghost") =
        AuthStatus 401 "Invalid token or user not active") /\
     (forall user, user_findById ex_env uid = Ok (Some user) -> du_isActive user = false ->
        authenticateToken ex_env (Some "Bearer ghost") =
        AuthStatus 401 "Invalid token or user not active") /\
     (forall name, user_findById ex_env uid = Throw name ->
        name <> "TokenExpiredError" -> name <> "JsonWebTokenError" ->
        authenticateToken ex_env (Some "Bearer ghost") = AuthStatus 500 "Authentication failed")).
Proof.
  split; [reflexivity|split; [discriminate|]].
  apply (authenticateToken_errors ex_env (Some "Bearer ghost") "ghost");
    [reflexivity|discriminate].
Defined.

Lemma createExpense_persists_decision_witness :
  exists c' d f reason,
  createExpense ex_oid_of ex_coll T0 102 [] ex_alice (inject_Z 42) "transportation" "Taxi"
    None None = (c', CCreated d f reason) /\
  ([] : list string) = [] /\
  exists uid fraudResult,
    let candidate := mkExpense (Some 102) uid (inject_Z 42) "Taxi"
                       (match (None : option Z) with Some x => x | None => T0 end)
                       T0 false "pending" in
    ex_oid_of (ru_userId ex_alice) = Some uid /\
    detectFraud (detector_store ex_coll) T0 candidate = Ok fraudResult /\
    f = d_isFlagged fraudResult /\ reason = d_reason fraudResult /\
    fields d = set_isFlagged candidate f /\
    flagReason d = (if f then Some reason else None) /\
    flaggedAt d = (if f then Some T0 else None) /\
    category d = "transportation" /\ receiptUrl d = None /\ reviewedBy d = None /\
    existsb (has_id (Some 102)) (cdocs ex_coll) = false /\
    cdocs c' = (cdocs ex_coll ++ [d])%list.
Proof.
  destruct (createExpense ex_oid_of ex_coll T0 102 [] ex_alice (inject_Z 42) "transportation"
              "Taxi" None None) as [c' r] eqn:E.
  destruct r as [code err|d f reason|m d|d|];
    try (vm_compute in E; discriminate).
  exists c', d, f, reason; split; [reflexivity|].
  exact (createExpense_persists_decision ex_oid_of ex_coll c' T0 102 [] ex_alice (inject_Z 42)
           "transportation" "Taxi" None None d f reason E).
Defined.

Lemma createExpense_blocked_by_detector_witness :
  ex_oid_of (ru_userId ex_alice) = Some 7 /\
  detectFraud (detector_store ex_coll_regex_down) T0
    (mkExpense (Some 102) 7 (inject_Z 42) "Taxi"
       (match (None : option Z) with Some x => x | None => T0 end) T0 false "pending") =
    Throw "MongoServerError" /\
  createExpense ex_oid_of ex_coll_regex_down T0 102 [] ex_alice (inject_Z 42) "transportation"
    "Taxi" None None = (ex_coll_regex_down, CError 500 "Failed to create expense").
Proof.
  split; [reflexivity|split; [vm_compute; reflexivity|]].
  apply (createExpense_blocked_by_detector ex_oid_of ex_coll_regex_down T0 102 ex_alice
           (inject_Z 42) "transportation" "Taxi" None None 7 "MongoServerError");
    [reflexivity|vm_compute; reflexivity].
Defined.

Lemma updateExpense_guards_witness :
  find_by_id ex_oid_of ex_coll "101" = Ok (Some ex_admin_doc) /\
  (ex_oid_str (userId (fields ex_admin_doc)) <> ru_userId ex_alice ->
     updateExpense ex_oid_str ex_oid_of ex_coll T0 [] ex_alice "101" (Some (inject_Z 60))
       None None None None = (ex_coll, CError 403 "Access denied")) /\
  (ex_oid_str (userId (fields ex_admin_doc)) = ru_userId ex_alice ->
     status (fields ex_admin_doc) <> "pending" ->
     updateExpense ex_oid_str ex_oid_of ex_coll T0 [] ex_alice "101" (Some (inject_Z 60))
       None None None None =
     (ex_coll, CError 400 "Cannot update expense that has already been reviewed")).
Proof.
  split; [reflexivity|].
  apply (updateExpense_guards ex_oid_str ex_oid_of ex_coll T0 ex_alice "101"
           (Some (inject_Z 60)) None None None None ex_admin_doc); reflexivity.
Defined.

Lemma updateExpense_flags_witness :
  exists c' m d',
  find_by_id ex_oid_of ex_coll "100" = Ok (Some ex_doc) /\
  updateExpense ex_oid_str ex_oid_of ex_coll T0 [] ex_alice "100" (Some (inject_Z 60))
    None None None None = (c', COk m d') /\
  _id (fields d') = _id (fields ex_doc) /\ userId (fields d') = userId (fields ex_doc) /\
  status (fields d') = "pending" /\
  cdocs c' = map (fun x => if has_id (_id (fields ex_doc)) x then d' else x) (cdocs ex_coll) /\
  (amount_truthy (Some (inject_Z 60)) = false -> (None : option Z) = None ->
     isFlagged (fields d') = isFlagged (fields ex_doc) /\ flagReason d' = flagReason ex_doc /\
     flaggedAt d' = flaggedAt ex_doc) /\
  (amount_truthy (Some (inject_Z 60)) = true \/ (None : option Z) <> None ->
     exists fraudResult,
       detectFraud (detector_store ex_coll) T0
         (set_isFlagged (fields d') (isFlagged (fields ex_doc))) = Ok fraudResult /\
       isFlagged (fields d') = d_isFlagged fraudResult /\
       flagReason d' = Some (d_reason fraudResult) /\
       flaggedAt d' = (if d_isFlagged fraudResult then Some T0 else None)).
Proof.
  destruct (updateExpense ex_oid_str ex_oid_of ex_coll T0 [] ex_alice "100"
              (Some (inject_Z 60)) None None None None) as [c' r] eqn:E.
  destruct r as [code err|d f reason|m d'|d|];
    try (vm_compute in E; discriminate).
  assert (Hf : find_by_id ex_oid_of ex_coll "100" = Ok (Some ex_doc)) by reflexivity.
  exists c', m, d'; split; [exact Hf|split; [reflexivity|]].
  exact (updateExpense_flags ex_oid_str ex_oid_of ex_coll c' T0 ex_alice "100"
           (Some (inject_Z 60)) None None None None ex_doc d' m Hf E).
Defined.

Lemma deleteExpense_spec_witness :
  find_by_id ex_oid_of ex_coll "100" = Ok (Some ex_doc) /\
  ex_oid_str (userId (fields ex_doc)) = ru_userId ex_alice /\
  status (fields ex_doc) = "pending" /\ write_fails ex_coll = false /\
  deleteExpense ex_oid_str ex_oid_of ex_coll ex_alice "100" =
    (with_docs ex_coll [ex_admin_doc], CDeleted).
Proof.
  split; [reflexivity|split; [reflexivity|split; [reflexivity|split; [reflexivity|]]]].
  apply (proj2 (deleteExpense_spec ex_oid_str ex_oid_of ex_coll ex_alice "100") ex_doc);
    reflexivity.
Defined.

Lemma review_is_final_witness :
  exists c' d',
  approveExpense ex_oid_of ex_coll T0 ex_admin "101" None =
    (c', COk "Expense approved successfully" d') /\
  status (fields d') = "approved" /\ find_by_id ex_oid_of c' "101" = Ok (Some d') /\
  approveExpense ex_oid_of c' (T0 + 1) ex_alice "101" None =
    (c', CError 400 "Expense has already been reviewed") /\
  rejectExpense ex_oid_of c' (T0 + 1) ex_admin "101" (Some "fraud") =
    (c', CError 400 "Expense has already been reviewed").
Proof.
  destruct (approveExpense ex_oid_of ex_coll T0 ex_admin "101" None) as [c' r] eqn:E.
  destruct r as [code err|d f reason|m d'|d|];
    try (vm_compute in E; discriminate).
  destruct (proj1 (review_is_final ex_oid_of ex_coll T0 ex_admin "101" None) c' m d' E)
    as (-> & Hs & _ & _ & Hf).
  exists c', d'; split; [reflexivity|split; [exact Hs|split; [exact Hf|]]].
  assert (Hn : status (fields d') <> "pending") by (rewrite Hs; discriminate).
  destruct (proj2 (proj2 (review_is_final ex_oid_of ex_coll T0 ex_admin "101" None))
              c' d' Hf Hn (T0 + 1) ex_alice None) as [Ha _].
  destruct (proj2 (proj2 (review_is_final ex_oid_of ex_coll T0 ex_admin "101" None))
              c' d' Hf Hn (T0 + 1) ex_admin (Some "fraud")) as [_ Hr].
  split; [exact Ha|exact Hr].
Defined.

Lemma approveExpense_any_reviewer_witness :
  find_by_id ex_oid_of ex_coll "101" = Ok (Some ex_admin_doc) /\
  status (fields ex_admin_doc) = "pending" /\ schema_valid ex_admin_doc = true /\
  ex_oid_of (ru_userId ex_admin) = Some (userId (fields ex_admin_doc)) /\
  write_fails ex_coll = false /\ populate_fails ex_coll = false /\
  Nat.leb (String.length (match (None : option string) with Some n => n | None => "" end))
    1000 = true /\
  exists c', approveExpense ex_oid_of ex_coll T0 ex_admin "101" None =
    (c', COk "Expense approved successfully"
           (mkExpenseDoc (set_status (fields ex_admin_doc) "approved") (category ex_admin_doc)
              (receiptUrl ex_admin_doc) (Some (userId (fields ex_admin_doc))) (Some T0)
              (Some (match (None : option string) with Some n => n | None => "" end))
              (flagReason ex_admin_doc) (flaggedAt ex_admin_doc))).
Proof.
  do 7 (split; [reflexivity|]).
  apply (approveExpense_any_reviewer ex_oid_of ex_coll T0 ex_admin "101" None ex_admin_doc
           (userId (fields ex_admin_doc))); reflexivity.
Defined.

Lemma getExpenseById_access_witness :
  getExpenseById ex_oid_str ex_oid_of ex_coll ex_alice "100" = CFound ex_doc /\
  find_by_id ex_oid_of ex_coll "100" = Ok (Some ex_doc) /\
  (ru_role ex_alice = "administrator" \/ ex_oid_str (userId (fields ex_doc)) = ru_userId ex_alice).
Proof.
  assert (H : getExpenseById ex_oid_str ex_oid_of ex_coll ex_alice "100" = CFound ex_doc)
    by reflexivity.
  split; [exact H|].
  exact (getExpenseById_access ex_oid_str ex_oid_of ex_coll ex_alice "100" ex_doc H).
Defined.

Lemma getExpenseById_missing_owner_witness :
  find_by_id ex_oid_of ex_coll_gone "101" = Ok (Some ex_admin_doc) /\
  populate_fails ex_coll_gone = false /\ ru_role ex_alice <> "administrator" /\
  user_exists ex_coll_gone (userId (fields ex_admin_doc)) = false /\
  getExpenseById ex_oid_str ex_oid_of ex_coll_gone ex_alice "101" =
    CError 500 "Failed to get expense".
Proof.
  split; [reflexivity|split; [reflexivity|split; [discriminate|split; [reflexivity|]]]].
  apply (getExpenseById_missing_owner ex_oid_str ex_oid_of ex_coll_gone ex_alice "101"
           ex_admin_doc); (reflexivity || discriminate).
Defined.

Lemma malformed_id_gives_500_witness :
  ex_oid_of "not-an-id" = None /\
  getExpenseById ex_oid_str ex_oid_of ex_coll ex_admin "not-an-id" =
    CError 500 "Failed to get expense" /\
  deleteExpense ex_oid_str ex_oid_of ex_coll ex_admin "not-an-id" =
    (ex_coll, CError 500 "Failed to delete expense") /\
  approveExpense ex_oid_of ex_coll T0 ex_admin "not-an-id" None =
    (ex_coll, CError 500 "Failed to approve expense") /\
  rejectExpense ex_oid_of ex_coll T0 ex_admin "not-an-id" None =
    (ex_coll, CError 500 "Failed to reject expense").
Proof.
  split; [reflexivity|].
  apply (malformed_id_gives_500 ex_oid_str ex_oid_of ex_coll T0 ex_admin "not-an-id" None).
  reflexivity.
Defined.

Lemma getExpenseStats_nonadmin_total_zero_witness :
  exists s,
  ru_role ex_alice <> "administrator" /\ ex_oid_of (ru_userId ex_alice) = Some 7 /\
  getExpenseStats ex_oid_of ex_sum ex_coll ex_alice = Ok s /\
  s_totalAmount s = 0%Q /\ s_totalExpenses s = 1%nat /\ s_pendingExpenses s = 1%nat /\
  s_flaggedExpenses s = 0%nat.
Proof.
  destruct (getExpenseStats ex_oid_of ex_sum ex_coll ex_alice) as [s|err] eqn:E;
    [|vm_compute in E; discriminate].
  assert (Ha : ru_role ex_alice <> "administrator") by discriminate.
  assert (Hu : ex_oid_of (ru_userId ex_alice) = Some 7) by reflexivity.
  destruct (getExpenseStats_nonadmin_total_zero ex_oid_of ex_sum ex_coll ex_alice s 7 Ha Hu E)
    as (H0 & _ & Ht & Hp & _ & _ & Hfl).
  exists s; split; [exact Ha|split; [exact Hu|split; [reflexivity|]]].
  rewrite H0, Ht, Hp, Hfl; repeat split; reflexivity.
Defined.

Lemma getExpenseStats_counts_witness :
  exists s,
  getExpenseStats ex_oid_of ex_sum ex_coll ex_admin = Ok s /\
  s_totalExpenses s = 2%nat /\ s_pendingExpenses s = 2%nat /\
  s_totalAmount s = to_double (inject_Z 42 + inject_Z 15)%Q.
Proof.
  destruct (getExpenseStats ex_oid_of ex_sum ex_coll ex_admin) as [s|err] eqn:E;
    [|vm_compute in E; discriminate].
  destruct (proj2 (proj2 (getExpenseStats_counts ex_oid_of ex_sum ex_coll ex_admin s E))
              eq_refl) as (Ht & Hp & _ & _ & _ & Ha & _).
  exists s; split; [reflexivity|].
  rewrite Ht, Hp, Ha; repeat split; vm_compute; reflexivity.
Defined.

Lemma getExpenses_scoped_witness :
  exists es total,
  getExpenses ex_oid_of no_cast no_float ex_coll ex_alice None None None None None None None
    (Some "8") 0 10 = Ok (es, total) /\
  let owner := if String.eqb (ru_role ex_alice) "administrator" then keep_truthy (Some "8")
               else Some (ru_userId ex_alice) in
  (forall u, owner = Some u ->
     exists uid, ex_oid_of u = Some uid /\
       Forall (fun d => userId (fields d) = uid) es /\
       total = List.length (filter (fun d => Z.eqb (userId (fields d)) uid &&
                  match cast_query ex_oid_of no_cast no_float
                          (expense_query ex_alice None None None None None None None
                             (Some "8")) with
                  | Ok m => m d | Throw _ => false end) (cdocs ex_coll))) /\
  Forall (fun d => In d (cdocs ex_coll)) es.
Proof.
  destruct (getExpenses ex_oid_of no_cast no_float ex_coll ex_alice None None None None None
              None None (Some "8") 0 10) as [[es total]|err] eqn:E;
    [|vm_compute in E; discriminate].
  exists es, total; split; [reflexivity|].
  exact (getExpenses_scoped ex_oid_of no_cast no_float ex_coll ex_alice None None None None
           None None None (Some "8") 0 10 es total E).
Defined.
